(** * esp-link UPnP control point (esp-link/upnp.c)

    A shallow embedding of the SSDP/UPnP port-forwarding client: the C
    strings and libc helpers it relies on, the request templates, the
    location analyzer, the receive-side scanners, the connection callbacks
    and the five command handlers, followed by the properties of the
    discovery and negotiation state machine.

    Conventions.
    - A C string ([char *]) is a [string]; a NULL pointer is [None].
    - A receive buffer is a [string] that may hold any byte; reading at or
      past its end yields the terminating NUL.
    - Fixed-width integers are [Z] with the wrap-around written out.
    - The firmware has a single session ([the_client]); connection callbacks
      are delivered for the connection owned by that session.
    - Calls into the SDK ([espconn_*]) and into the command channel
      ([cmdResponseStart]/[cmdResponseEnd]) are recorded in a trace, most
      recent first.  [os_printf] diagnostics are not modelled. *)

From Stdlib Require Import ZArith List String Ascii Bool Lia.
From Stdlib Require Import DecimalString.
Import ListNotations.

Local Open Scope string_scope.
Local Open Scope Z_scope.

(** ** Characters and C strings *)

Definition NUL : ascii := "000"%char.
Definition CR : ascii := "013"%char.
Definition LF : ascii := "010"%char.

Definition crlf : string := String CR (String LF "").
Definition dq : string := String "034"%char "".

Definition is_nul (c : ascii) : bool := Ascii.eqb c NUL.

(** [s + n] on a [char *]. *)
Fixpoint str_drop (n : nat) (s : string) : string :=
  match n, s with
  | O, _ => s
  | S n', String _ r => str_drop n' r
  | S _, EmptyString => EmptyString
  end.

(** The first [n] bytes of [s]. *)
Fixpoint str_take (n : nat) (s : string) : string :=
  match n, s with
  | O, _ => EmptyString
  | S n', String c r => String c (str_take n' r)
  | S _, EmptyString => EmptyString
  end.

(** [s[i]]; the byte at the end of the buffer is the terminator. *)
Definition char_at (s : string) (i : nat) : ascii :=
  match str_drop i s with
  | String c _ => c
  | EmptyString => NUL
  end.

(** The C string stored at the start of a buffer: everything before the
    first NUL. *)
Fixpoint c_str (s : string) : string :=
  match s with
  | EmptyString => EmptyString
  | String c r => if is_nul c then EmptyString else String c (c_str r)
  end.

(** Number of iterations of [for (; s[k] && !stop(s[k]); k++) ;]. *)
Fixpoint span_until (stop : ascii -> bool) (s : string) : nat :=
  match s with
  | EmptyString => O
  | String c r => if is_nul c || stop c then O else S (span_until stop r)
  end.

Definition strlen (s : string) : Z := Z.of_nat (String.length s).

Definition tolower (c : ascii) : ascii :=
  let n := nat_of_ascii c in
  if (Nat.leb 65 n && Nat.leb n 90)%bool then ascii_of_nat (n + 32) else c.

Definition head_char (s : string) : ascii :=
  match s with String c _ => c | EmptyString => NUL end.

Definition tail_str (s : string) : string :=
  match s with String _ r => r | EmptyString => EmptyString end.

(** [strncmp(a, b, n) == 0]. *)
Fixpoint strncmp_eq (a b : string) (n : nat) : bool :=
  match n with
  | O => true
  | S n' =>
      let ca := head_char a in
      let cb := head_char b in
      if Ascii.eqb ca cb
      then if is_nul ca then true else strncmp_eq (tail_str a) (tail_str b) n'
      else false
  end.

(** [strncasecmp(a, b, n) == 0]. *)
Fixpoint strncasecmp_eq (a b : string) (n : nat) : bool :=
  match n with
  | O => true
  | S n' =>
      let ca := head_char a in
      let cb := head_char b in
      if Ascii.eqb (tolower ca) (tolower cb)
      then if is_nul ca then true else strncasecmp_eq (tail_str a) (tail_str b) n'
      else false
  end.

Definition is_digit (c : ascii) : bool :=
  let n := nat_of_ascii c in (Nat.leb 48 n && Nat.leb n 57)%bool.

Definition digit_val (c : ascii) : Z := Z.of_nat (nat_of_ascii c) - 48.

(** [isspace] in the C locale. *)
Definition is_space (c : ascii) : bool :=
  let n := nat_of_ascii c in (Nat.eqb n 32 || (Nat.leb 9 n && Nat.leb n 13))%bool.

Fixpoint atoi_digits (acc : Z) (s : string) : Z :=
  match s with
  | String c r => if is_digit c then atoi_digits (10 * acc + digit_val c) r else acc
  | EmptyString => acc
  end.

Fixpoint atoi_skip (s : string) : string :=
  match s with
  | String c r => if is_space c then atoi_skip r else s
  | EmptyString => s
  end.

(** [atoi]: leading blanks, an optional sign, then decimal digits.  C
    defines the result only while the digits denote a value that fits an
    [int]; beyond that the behaviour of the library call is undefined.
    The function below returns the mathematical value for every digit
    string, so it agrees with the code on the defined range only, and
    callers narrow the value to the width of the field they store. *)
Definition atoi (s : string) : Z :=
  match atoi_skip s with
  | String "-"%char r => - atoi_digits 0 r
  | String "+"%char r => atoi_digits 0 r
  | t => atoi_digits 0 t
  end.

(** Decimal rendering of [%d]. *)
Definition dec (z : Z) : string := NilZero.string_of_int (Z.to_int z).

Inductive fmt_arg : Type :=
| ArgS (s : string)
| ArgD (z : Z).

(** [os_sprintf] restricted to the two conversions the templates use.  A
    conversion with no matching argument is undefined ([None]); arguments
    left over once the format is exhausted are ignored, as in C. *)
Fixpoint os_sprintf (fmt : string) (args : list fmt_arg) : option string :=
  match fmt with
  | EmptyString => Some EmptyString
  | String "%"%char (String "s"%char rest) =>
      match args with
      | ArgS s :: args' => option_map (append s) (os_sprintf rest args')
      | _ => None
      end
  | String "%"%char (String "d"%char rest) =>
      match args with
      | ArgD z :: args' => option_map (append (dec z)) (os_sprintf rest args')
      | _ => None
      end
  | String c rest => option_map (String c) (os_sprintf rest args)
  end.

Definition uint16 (z : Z) : Z := z mod 65536.

(** lwIP's [ip4_addr1] .. [ip4_addr4]: the bytes of an address in memory
    order. *)
Definition ip4_addr1 (a : Z) : Z := Z.land a 255.
Definition ip4_addr2 (a : Z) : Z := Z.land (Z.shiftr a 8) 255.
Definition ip4_addr3 (a : Z) : Z := Z.land (Z.shiftr a 16) 255.
Definition ip4_addr4 (a : Z) : Z := Z.land (Z.shiftr a 24) 255.

(** ** Constants and request templates *)

Definition counter_max : Z := 4.

Inductive upnp_state_t : Type :=
| upnp_none
| upnp_multicasted
| upnp_found_igd
| upnp_ready
| upnp_adding_port
| upnp_removing_port
| upnp_query_extaddress.

Definition upnp_state_eqb (a b : upnp_state_t) : bool :=
  match a, b with
  | upnp_none, upnp_none
  | upnp_multicasted, upnp_multicasted
  | upnp_found_igd, upnp_found_igd
  | upnp_ready, upnp_ready
  | upnp_adding_port, upnp_adding_port
  | upnp_removing_port, upnp_removing_port
  | upnp_query_extaddress, upnp_query_extaddress => true
  | _, _ => false
  end.

Definition upnp_ssdp_multicast : string := "239.255.255.250".
Definition upnp_server_port : Z := 1900.

Definition ssdp_message : string :=
  "M-SEARCH * HTTP/1.1" ++ crlf ++
  "HOST: 239.255.255.250:1900" ++ crlf ++
  "ST: urn:schemas-upnp-org:device:InternetGatewayDevice:1" ++ crlf ++
  "MAN: " ++ dq ++ "ssdp:discover" ++ dq ++ crlf ++
  "MX: 2" ++ crlf.

Definition upnp_general_query : string :=
  "GET %s HTTP/1.0" ++ crlf ++
  "Host: %s" ++ crlf ++
  "Connection: close" ++ crlf ++
  "User-Agent: esp-link" ++ crlf ++ crlf.

Definition upnp_query_external_address : string :=
  "POST %s HTTP/1.0" ++ crlf ++
  "Host: %s" ++ crlf ++
  "User-Agent: esp-link" ++ crlf ++
  "Content-Length : %d" ++ crlf ++
  "Content-Type: text/xml" ++ crlf ++
  "SOAPAction: " ++ dq ++
    "urn:schemas-upnp-org:service:WANPPPConnection:1#GetExternalIPAddress" ++ dq ++ crlf ++
  "Connection: Close" ++ crlf ++
  "Cache-Control: no-cache" ++ crlf ++
  "Pragma: no-cache" ++ crlf ++
  crlf ++ "%s".

Definition upnp_query_external_address_xml : string :=
  "<?xml version=" ++ dq ++ "1.0" ++ dq ++ "?>" ++ crlf ++
  "<s:Envelope xmlns:s=" ++ dq ++ "http://schemas.xmlsoap.org/soap/envelope/" ++ dq ++
    " s:encodingStyle=" ++ dq ++ "http://schemas.xmlsoap.org/soap/encoding/" ++ dq ++ ">" ++ crlf ++
  "<s:Body>" ++ crlf ++
  "<u:GetExternalIPAddress xmlns:u=" ++ dq ++
    "urn:schemas-upnp-org:service:WANPPPConnection:1" ++ dq ++ ">" ++ crlf ++
  "</u:GetExternalIPAddress>" ++ crlf ++
  "</s:Body>" ++ crlf ++
  "</s:Envelope>" ++ crlf.

Definition upnp_query_add_tmpl : string :=
  "POST %s HTTP/1.0" ++ crlf ++
  "Host: %s" ++ crlf ++
  "User-Agent: esp-link" ++ crlf ++
  "Content-Length: %d" ++ crlf ++
  "Content-Type: text/xml" ++ crlf ++
  "SOAPAction: " ++ dq ++
    "urn:schemas-upnp-org:service:WANPPPConnection:1#AddPortMapping" ++ dq ++ crlf ++
  "Connection: Close" ++ crlf ++
  "Cache-Control: no-cache" ++ crlf ++
  "Pragma: no-cache" ++ crlf ++ crlf ++ "%s".

Definition upnp_query_add_xml : string :=
  "<?xml version=" ++ dq ++ "1.0" ++ dq ++ "?>" ++ crlf ++
  "<s:Envelope xmlns:s=" ++ dq ++ "http://schemas.xmlsoap.org/soap/envelope/" ++ dq ++
  " s:encodingStyle=" ++ dq ++ "http://schemas.xmlsoap.org/soap/encoding/" ++ dq ++ ">" ++ crlf ++
  "<s:Body>" ++ crlf ++
  "<u:AddPortMapping xmlns:u=" ++ dq ++
    "urn:schemas-upnp-org:service:WANPPPConnection:1" ++ dq ++ ">" ++ crlf ++
  "<NewRemoteHost></NewRemoteHost>" ++ crlf ++
  "<NewExternalPort>%d</NewExternalPort>" ++ crlf ++
  "<NewProtocol>TCP</NewProtocol>" ++ crlf ++
  "<NewInternalPort>%d</NewInternalPort>" ++ crlf ++
  "<NewInternalClient>%d.%d.%d.%d</NewInternalClient>" ++ crlf ++
  "<NewEnabled>1</NewEnabled>" ++ crlf ++
  "<NewPortMappingDescription>libminiupnpc</NewPortMappingDescription>" ++ crlf ++
  "<NewLeaseDuration>0</NewLeaseDuration>" ++ crlf ++
  "</u:AddPortMapping>" ++ crlf ++
  "</s:Body>" ++ crlf ++
  "</s:Envelope>" ++ crlf.

Definition upnp_query_remove_tmpl : string :=
  "POST %s HTTP/1.0" ++ crlf ++
  "Host: %s" ++ crlf ++
  "User-Agent: esp-link" ++ crlf ++
  "Content-Length: %d" ++ crlf ++
  "Content-Type: text/xml" ++ crlf ++
  "SOAPAction: " ++ dq ++
    "urn:schemas-upnp-org:service:WANPPPConnection:1#DeletePortMapping" ++ dq ++ crlf ++
  "Connection: Close" ++ crlf ++
  "Cache-Control: no-cache" ++ crlf ++
  "Pragma: no-cache" ++ crlf.

Definition upnp_query_remove_xml : string :=
  "<?xml version=" ++ dq ++ "1.0" ++ dq ++ "?>" ++ crlf ++
  "<s:Envelope xmlns:s=" ++ dq ++ "http://schemas.xmlsoap.org/soap/envelope/" ++ dq ++ crlf ++
  "    s:encodingStyle=" ++ dq ++ "http://schemas.xmlsoap.org/soap/encoding/" ++ dq ++ ">" ++ crlf ++
  "  <s:Body>" ++ crlf ++
  "    <u:DeletePortMapping xmlns:u=" ++ dq ++
    "urn:schemas-upnp-org:service:WANPPPConnection:1" ++ dq ++ ">" ++ crlf ++
  "    <NewRemoteHost>" ++ crlf ++
  "    </NewRemoteHost>" ++ crlf ++
  "    <NewExternalPort>%d</NewExternalPort>" ++ crlf ++
  "    <NewProtocol>TCP</NewProtocol>" ++ crlf ++
  "  </u:DeletePortMapping>" ++ crlf ++
  "  </s:Body>" ++ crlf ++
  "</s:Envelope>" ++ crlf.

(** ** The session record and the global state *)

Inductive espconn_type : Type := ESPCONN_UDP | ESPCONN_TCP.

Record espconn : Type := mk_espconn {
  conn_type : espconn_type;
  conn_remote_port : Z;
  conn_remote_ip : Z
}.

Record UPnPClient : Type := mk_client {
  host : option string;
  path : option string;
  location : option string;
  control_url : option string;
  control_port : Z;
  external_address : Z;
  port : Z;
  remote_port : Z;
  ip : Z;
  remote_ip : Z;
  con : option espconn;
  data : option string;
  data_len : Z;
  data_sent : Z
}.

(** A client fresh from [os_zalloc]. *)
Definition zalloc_client : UPnPClient :=
  mk_client None None None None 0 0 0 0 0 0 None None 0 0.

Definition set_location (c : UPnPClient) (h p l : string) (cp : Z) : UPnPClient :=
  mk_client (Some h) (Some p) (Some l) (control_url c) cp (external_address c)
            (port c) (remote_port c) (ip c) (remote_ip c) (con c)
            (data c) (data_len c) (data_sent c).

Definition set_control_url (c : UPnPClient) (u : option string) : UPnPClient :=
  mk_client (host c) (path c) (location c) u (control_port c) (external_address c)
            (port c) (remote_port c) (ip c) (remote_ip c) (con c)
            (data c) (data_len c) (data_sent c).

Definition set_external_address (c : UPnPClient) (a : Z) : UPnPClient :=
  mk_client (host c) (path c) (location c) (control_url c) (control_port c) a
            (port c) (remote_port c) (ip c) (remote_ip c) (con c)
            (data c) (data_len c) (data_sent c).

Definition set_mapping (c : UPnPClient) (i p rp : Z) : UPnPClient :=
  mk_client (host c) (path c) (location c) (control_url c) (control_port c)
            (external_address c) p rp i (remote_ip c) (con c)
            (data c) (data_len c) (data_sent c).

Definition set_remote_ip (c : UPnPClient) (a : Z) : UPnPClient :=
  mk_client (host c) (path c) (location c) (control_url c) (control_port c)
            (external_address c) (port c) (remote_port c) (ip c) a (con c)
            (data c) (data_len c) (data_sent c).

Definition set_con (c : UPnPClient) (k : option espconn) : UPnPClient :=
  mk_client (host c) (path c) (location c) (control_url c) (control_port c)
            (external_address c) (port c) (remote_port c) (ip c) (remote_ip c) k
            (data c) (data_len c) (data_sent c).

Definition set_data (c : UPnPClient) (d : option string) (n : Z) : UPnPClient :=
  mk_client (host c) (path c) (location c) (control_url c) (control_port c)
            (external_address c) (port c) (remote_port c) (ip c) (remote_ip c) (con c)
            d n (data_sent c).

Definition set_data_sent (c : UPnPClient) (n : Z) : UPnPClient :=
  mk_client (host c) (path c) (location c) (control_url c) (control_port c)
            (external_address c) (port c) (remote_port c) (ip c) (remote_ip c) (con c)
            (data c) (data_len c) n.

(** What the firmware asks of the SDK and of the command channel. *)
Inductive effect : Type :=
| Espconn_create
| Espconn_sent (msg : string)
| Espconn_connect (addr : Z) (rport : Z)
| Espconn_gethostbyname (name : string)
| Espconn_send (bytes : string)
| Espconn_delete
| CmdResponse (v : Z).

(** The file-scope variables of upnp.c, plus the trace. *)
Record World : Type := mk_world {
  upnp_state : upnp_state_t;
  counter : Z;
  ssdp_len : Z;
  g_control_url : option string;
  the_client : option UPnPClient;
  trace : list effect
}.

(** Static storage is zero-initialised. *)
Definition initial_world : World :=
  mk_world upnp_none 0 0 None None [].

Definition set_state (w : World) (s : upnp_state_t) : World :=
  mk_world s (counter w) (ssdp_len w) (g_control_url w) (the_client w) (trace w).

Definition set_counter (w : World) (n : Z) : World :=
  mk_world (upnp_state w) n (ssdp_len w) (g_control_url w) (the_client w) (trace w).

Definition set_ssdp_len (w : World) (n : Z) : World :=
  mk_world (upnp_state w) (counter w) n (g_control_url w) (the_client w) (trace w).

Definition set_g_control_url (w : World) (u : option string) : World :=
  mk_world (upnp_state w) (counter w) (ssdp_len w) u (the_client w) (trace w).

Definition set_client (w : World) (c : option UPnPClient) : World :=
  mk_world (upnp_state w) (counter w) (ssdp_len w) (g_control_url w) c (trace w).

Definition emit (e : effect) (w : World) : World :=
  mk_world (upnp_state w) (counter w) (ssdp_len w) (g_control_url w) (the_client w)
           (e :: trace w).

(** [cmdResponseStart(CMD_RESP_V, v, 0); cmdResponseEnd();] *)
Definition respond (v : Z) (w : World) : World := emit (CmdResponse v) w.

(** ** Services the firmware provides to this file

    The command-packet decoder (cmd.h) and the dotted-quad parser are
    compiled from other files of the firmware; the model is parametric in
    them.  [cmdPopArg req len] is [None] when the C function reports a
    failure (non-zero), otherwise the popped value and the advanced
    request.  [UTILS_StrToIP s] is [None] when the C function returns 0,
    otherwise the 32-bit address it stored. *)
Class Platform : Type := {
  CmdPacket : Type;
  CmdRequest : Type;
  cmdRequest : CmdPacket -> CmdRequest;
  cmdGetArgc : CmdRequest -> Z;
  cmdPopArg : CmdRequest -> Z -> option (Z * CmdRequest);
  UTILS_StrToIP : string -> option Z
}.

(** ** The location analyzer *)

Definition is_colon (c : ascii) : bool := Ascii.eqb c ":"%char.
Definition is_slash (c : ascii) : bool := Ascii.eqb c "/"%char.
Definition is_lt (c : ascii) : bool := Ascii.eqb c "<"%char.
Definition is_cr (c : ascii) : bool := Ascii.eqb c CR.

(** [upnp_analyze_location(client, orig_loc, len)].  The first loop reads
    [location[7]], which lies inside the [len+1] allocated bytes only when
    [len >= 7]. *)
Definition upnp_analyze_location (c : UPnPClient) (orig_loc : string) (len : nat)
  : option UPnPClient :=
  let loc := c_str (str_take len orig_loc) in
  if Nat.ltb len 7 then None else
  (* for (i=7; location[i]; i++) if (location[i] == ':') { p = i+1; break; } *)
  let i1 := (7 + span_until is_colon (str_drop 7 loc))%nat in
  let p := if is_colon (char_at loc i1) then S i1 else O in
  let cport := if Nat.eqb p 0 then 80 else uint16 (atoi (str_drop p loc)) in
  (* for (; location[i] && location[i] != '/'; i++) ; *)
  let i2 := (i1 + span_until is_slash (str_drop i1 loc))%nat in
  let slash := is_slash (char_at loc i2) in
  let pth := if slash then str_drop i2 loc else EmptyString in
  let q := if slash then i2 else O in
  let hst := if Nat.eqb q 0 then str_drop 7 loc
             else str_take (q - 7) (str_drop 7 loc) in
  Some (set_location c hst pth loc cport).

(** ** Scanning received data *)

(** The loop of [ssdp_recv_cb]: the first [i] in [start, start+n) where a
    line break is followed by the LOCATION header name. *)
Fixpoint find_location (s : string) (start n : nat) : option nat :=
  match n with
  | O => None
  | S n' =>
      if (Ascii.eqb (char_at s start) CR && Ascii.eqb (char_at s (start + 1)) LF
          && strncmp_eq (str_drop (start + 2) s) "LOCATION:" 9)%bool
      then Some start
      else find_location s (S start) n'
  end.

Definition service_id : string := "urn:upnp-org:serviceId:WANPPPConn1".

Record scan_state : Type := mk_scan {
  inservice : Z;
  get_this : Z;
  found_url : option string
}.

(** The text after a 12-byte open tag, up to the next ['<'] or NUL. *)
Definition tag_content (p : string) : string :=
  let body := str_drop 12 p in
  str_take (span_until is_lt body) body.

(** One iteration of the description scan; [p] is [pdata+i]. *)
Definition service_step (p : string) (st : scan_state) : scan_state :=
  if strncasecmp_eq p "<service>" 9 then
    mk_scan (inservice st + 1) (get_this st) (found_url st)
  else if strncasecmp_eq p "</service>" 10 then
    mk_scan (inservice st - 1) (get_this st) (found_url st)
  else if strncasecmp_eq p service_id 34 then
    mk_scan (inservice st) (inservice st) (found_url st)
  else if (Z.eqb (get_this st) (inservice st) && strncasecmp_eq p "<controlURL>" 12)%bool then
    mk_scan (inservice st) (-1) (Some (tag_content p))
  else st.

(** [for (int i=0; i<len; i++) ...] over the buffer. *)
Fixpoint service_scan (p : string) (st : scan_state) : scan_state :=
  match p with
  | EmptyString => st
  | String _ r => service_scan r (service_step p st)
  end.

(** Does the external-address loop reach its [break]? *)
Fixpoint has_external_ip_tag (p : string) : bool :=
  match p with
  | EmptyString => false
  | String _ r => (strncasecmp_eq p "<NewExternalIPAddress>" 22 || has_external_ip_tag r)%bool
  end.

Definition uint32 (z : Z) : Z := z mod 4294967296.

Definition bind_opt {A B : Type} (x : option A) (f : A -> option B) : option B :=
  match x with
  | Some a => f a
  | None => None
  end.

Notation "'do' x <- e ; k" := (bind_opt e (fun x => k))
  (at level 10, x name, e at level 100, k at level 200).

(** ** Building the requests *)

(** The request text chosen by the [switch] of [upnp_query_igd].  The outer
    [None] is a NULL string handed to [strlen]/[os_sprintf]; the inner
    [None] is the [default] branch, which returns without a request. *)
Definition build_query (s : upnp_state_t) (c : UPnPClient) : option (option string) :=
  match s with
  | upnp_found_igd =>
      do p <- path c;
      do l <- location c;
      do q <- os_sprintf upnp_general_query [ArgS p; ArgS l];
      Some (Some q)
  | upnp_adding_port =>
      do xml <- os_sprintf upnp_query_add_xml
                  [ArgD (remote_port c); ArgD (port c);
                   ArgD (ip4_addr4 (ip c)); ArgD (ip4_addr3 (ip c));
                   ArgD (ip4_addr2 (ip c)); ArgD (ip4_addr1 (ip c))];
      do u <- control_url c;
      do h <- host c;
      do q <- os_sprintf upnp_query_add_tmpl [ArgS u; ArgS h; ArgD (strlen xml); ArgS xml];
      Some (Some q)
  | upnp_removing_port =>
      do xml <- os_sprintf upnp_query_remove_xml [ArgD (remote_port c)];
      do u <- control_url c;
      do h <- host c;
      do q <- os_sprintf upnp_query_remove_tmpl [ArgS u; ArgS h; ArgD (strlen xml); ArgS xml];
      Some (Some q)
  | upnp_query_extaddress =>
      do u <- control_url c;
      do h <- host c;
      do q <- os_sprintf upnp_query_external_address
                [ArgS u; ArgS h; ArgD (strlen upnp_query_external_address_xml);
                 ArgS upnp_query_external_address_xml];
      Some (Some q)
  | _ => Some None
  end.

Section Model.

Context `{Platform}.

(** [upnp_query_igd(client)]: a new TCP connection, the request for the
    current state, then either a connect or a name lookup. *)
Definition upnp_query_igd (c : UPnPClient) (w : World) : option World :=
  let c1 := set_con c (Some (mk_espconn ESPCONN_TCP (control_port c) 0)) in
  do oq <- build_query (upnp_state w) c1;
  match oq with
  | None => Some (set_client w (Some c1))
  | Some q =>
      let c2 := set_data c1 (Some q) (uint16 (strlen q)) in
      do h <- host c2;
      match UTILS_StrToIP h with
      | Some a =>
          let c3 := set_remote_ip
                      (set_con c2 (Some (mk_espconn ESPCONN_TCP (control_port c) a))) a in
          Some (emit (Espconn_connect a (control_port c)) (set_client w (Some c3)))
      | None =>
          Some (emit (Espconn_gethostbyname h) (set_client w (Some c2)))
      end
  end.

(** [upnp_cleanup_conn(client)] *)
Definition upnp_cleanup_conn (c : UPnPClient) (w : World) : UPnPClient * World :=
  (set_con c None, emit Espconn_delete w).

(** ** Connection callbacks *)

Definition ssdp_recv_cb (pusrdata : string) (w : World) : option World :=
  match upnp_state w with
  | upnp_multicasted =>
      do client <- the_client w;
      let length := Z.of_nat (String.length pusrdata) in
      match find_location pusrdata 0 (Z.to_nat (length - 20)) with
      | Some i =>
          let j := (i + 11)%nat in
          let k := (j + span_until is_cr (str_drop j pusrdata))%nat in
          do c1 <- upnp_analyze_location client (str_drop j pusrdata) (k - j);
          let '(c2, w1) := upnp_cleanup_conn c1 w in
          upnp_query_igd c2 (set_state w1 upnp_found_igd)
      | None => Some w
      end
  | _ => Some w
  end.

Definition ssdp_sent_cb (w : World) : World :=
  if (upnp_state_eqb (upnp_state w) upnp_multicasted && (counter w <? counter_max))%bool
  then emit (Espconn_sent ssdp_message) (set_counter w (counter w + 1))
  else w.

Definition payload (c : UPnPClient) : string :=
  match data c with Some d => d | None => EmptyString end.

Definition upnp_tcp_sent_cb (w : World) : option World :=
  do client <- the_client w;
  if negb (data_sent client =? data_len client)
  then
    let rest := str_take (Z.to_nat (data_len client - data_sent client))
                         (str_drop (Z.to_nat (data_sent client)) (payload client)) in
    Some (emit (Espconn_send rest)
               (set_client w (Some (set_data_sent client (data_len client)))))
  else Some (set_client w (Some (set_data client None (data_len client)))).

Definition upnp_tcp_discon_cb (w : World) : option World :=
  do client <- the_client w;
  let c1 := set_con (set_data client None (data_len client)) None in
  let w1 := emit Espconn_delete (set_client w (Some c1)) in
  match upnp_state w1 with
  | upnp_found_igd => Some (set_state w1 upnp_ready)
  | _ => Some w1
  end.

Definition upnp_tcp_recon_cb (w : World) : World := w.

Definition upnp_tcp_connect_cb (w : World) : option World :=
  do client <- the_client w;
  let n := if data_len client <=? 1400 then data_len client else 1400 in
  Some (emit (Espconn_send (str_take (Z.to_nat n) (payload client)))
             (set_client w (Some (set_data_sent client n)))).

Definition upnp_dns_found (ipaddr : option Z) (w : World) : World :=
  match ipaddr with
  | None => w
  | Some a =>
      match the_client w with
      | Some client =>
          if ((remote_ip client =? 0) && negb (a =? 0))%bool
          then emit (Espconn_connect a (control_port client))
                 (set_client w (Some (set_con client
                    (Some (mk_espconn ESPCONN_TCP (control_port client) a)))))
          else w
      | None => w
      end
  end.

Definition upnp_tcp_recv_cb (pdata : string) (w : World) : option World :=
  match upnp_state w with
  | upnp_found_igd =>
      do client <- the_client w;
      match found_url (service_scan pdata (mk_scan 0 (-1) None)) with
      | Some u => Some (set_client (set_g_control_url w (Some u))
                                   (Some (set_control_url client (Some u))))
      | None => Some w
      end
  | upnp_query_extaddress =>
      do client <- the_client w;
      if has_external_ip_tag pdata then
        do h <- host client;
        match UTILS_StrToIP h with
        | Some e => Some (set_client w (Some (set_external_address client e)))
        | None => Some w
        end
      else Some w
  | _ => Some w
  end.

(** ** Command handlers *)

(** [alloc_con] and [alloc_udp] tell whether the two checked [os_zalloc]
    calls return memory. *)
Definition cmdUPnPScan (alloc_con alloc_udp : bool) (w : World) : World :=
  if upnp_state_eqb (upnp_state w) upnp_ready then
    match the_client w with
    | None => respond 0 w
    | Some c => respond (remote_ip c) w
    end
  else
    let w1 := set_state w upnp_none in
    if negb alloc_con then respond 0 w1 else
    let w2 := set_counter w1 0 in
    if negb alloc_udp then respond 0 w2 else
    let w3 := set_client w2
                (Some (set_con zalloc_client
                         (Some (mk_espconn ESPCONN_UDP upnp_server_port 0)))) in
    match UTILS_StrToIP upnp_ssdp_multicast with
    | None => respond 0 w3
    | Some a =>
        let w4 := set_client w3
                    (Some (set_con zalloc_client
                             (Some (mk_espconn ESPCONN_UDP upnp_server_port a)))) in
        let w5 := emit Espconn_create w4 in
        let w6 := set_ssdp_len w5 (strlen ssdp_message) in
        let w7 := emit (Espconn_sent ssdp_message) w6 in
        respond 0 (set_state w7 upnp_multicasted)
    end.

(** The guard shared by the add and remove handlers. *)
Definition gateway_ready (w : World) : option UPnPClient :=
  match the_client w with
  | None => None
  | Some c =>
      if ((remote_ip c =? 0) || negb (upnp_state_eqb (upnp_state w) upnp_ready))%bool
      then None else Some c
  end.

Definition cmdUPnPAddPort (cmd : CmdPacket) (w : World) : option World :=
  let req := cmdRequest cmd in
  if negb (cmdGetArgc req =? 3) then Some w else
  match cmdPopArg req 4 with
  | None => Some w
  | Some (ip_arg, req1) =>
  match cmdPopArg req1 2 with
  | None => Some w
  | Some (local_port, req2) =>
  match cmdPopArg req2 2 with
  | None => Some w
  | Some (remote_port_arg, _) =>
      match gateway_ready w with
      | None => Some (respond (-1) w)
      | Some c =>
          let c1 := set_mapping c (uint32 ip_arg) (uint16 local_port)
                                (uint16 remote_port_arg) in
          do w1 <- upnp_query_igd c1 (set_state w upnp_adding_port);
          Some (respond 0 w1)
      end
  end end end.

Definition cmdUPnPRemovePort (cmd : CmdPacket) (w : World) : option World :=
  let req := cmdRequest cmd in
  if negb (cmdGetArgc req =? 1) then Some w else
  match cmdPopArg req 2 with
  | None => Some w
  | Some (remote_port_arg, _) =>
      match gateway_ready w with
      | None => Some (respond (-1) w)
      | Some c =>
          let c1 := set_mapping c (ip c) (port c) (uint16 remote_port_arg) in
          do w1 <- upnp_query_igd c1 (set_state w upnp_removing_port);
          Some (respond 0 w1)
      end
  end.

Definition cmdUPnPBegin (w : World) : World :=
  set_state (set_client w None) upnp_none.

Definition cmdUPnPQueryExternalAddress (w : World) : option World :=
  match the_client w with
  | None => Some (respond (-1) w)
  | Some c =>
      if remote_ip c =? 0 then Some (respond (-1) w) else
      match upnp_state w with
      | upnp_query_extaddress =>
          let ext := external_address c in
          let w1 := if negb (ext =? 0) then set_state w upnp_ready else w in
          Some (respond ext w1)
      | upnp_ready =>
          do w1 <- upnp_query_igd c (set_state w upnp_query_extaddress);
          Some (respond 0 w1)
      | _ => Some (respond (-1) w)
      end
  end.

(** ** Events and executions *)

Inductive event : Type :=
| CmdBegin
| CmdScan (alloc_con alloc_udp : bool)
| CmdAddPort (cmd : CmdPacket)
| CmdRemovePort (cmd : CmdPacket)
| CmdQueryExternalAddress
| SsdpRecv (pusrdata : string)
| SsdpSent
| TcpConnect
| TcpSent
| TcpRecv (pdata : string)
| TcpDiscon
| TcpRecon
| DnsFound (ipaddr : option Z).

Definition step (w : World) (e : event) : option World :=
  match e with
  | CmdBegin => Some (cmdUPnPBegin w)
  | CmdScan a b => Some (cmdUPnPScan a b w)
  | CmdAddPort cmd => cmdUPnPAddPort cmd w
  | CmdRemovePort cmd => cmdUPnPRemovePort cmd w
  | CmdQueryExternalAddress => cmdUPnPQueryExternalAddress w
  | SsdpRecv d => ssdp_recv_cb d w
  | SsdpSent => Some (ssdp_sent_cb w)
  | TcpConnect => upnp_tcp_connect_cb w
  | TcpSent => upnp_tcp_sent_cb w
  | TcpRecv d => upnp_tcp_recv_cb d w
  | TcpDiscon => upnp_tcp_discon_cb w
  | TcpRecon => Some (upnp_tcp_recon_cb w)
  | DnsFound a => Some (upnp_dns_found a w)
  end.

Fixpoint run (w : World) (evs : list event) : option World :=
  match evs with
  | [] => Some w
  | e :: evs' => do w' <- step w e; run w' evs'
  end.

Definition reachable (w : World) : Prop :=
  exists evs, run initial_world evs = Some w.

Definition is_scan (e : event) : bool :=
  match e with CmdScan _ _ => true | _ => false end.

End Model.

(** Number of SSDP datagrams handed to [espconn_sent] in a trace. *)
Fixpoint ssdp_sends (t : list effect) : Z :=
  match t with
  | [] => 0
  | Espconn_sent _ :: t' => ssdp_sends t' + 1
  | _ :: t' => ssdp_sends t'
  end.

(** Does the trace open a connection (UDP create, TCP connect, or the name
    lookup that precedes a connect)? *)
Definition opens_connection (e : effect) : bool :=
  match e with
  | Espconn_create | Espconn_connect _ _ | Espconn_gethostbyname _ => true
  | _ => false
  end.

(** ** A simulated platform

    Used to run the model on concrete inputs. *)

(** Modelled from the spec: [UTILS_StrToIP], whose code is in another file
    of the firmware.  The spec has the text that follows a tag parsed "as a
    dotted-decimal IPv4 address": four decimal numbers below 256, the first
    three each closed by a dot, the fourth by any other byte or the end of
    the string.  The octets are stored in memory order. *)
Fixpoint quad_number (fuel : nat) (acc : Z) (s : string) : Z * string :=
  match fuel with
  | O => (acc, s)
  | S fuel' =>
      match s with
      | String c r => if is_digit c then quad_number fuel' (10 * acc + digit_val c) r
                      else (acc, s)
      | EmptyString => (acc, s)
      end
  end.

Definition quad_octet (s : string) : option (Z * string) :=
  let '(n, r) := quad_number (String.length s) 0 s in
  if n <? 256 then Some (n, r) else None.

Definition quad_dot (s : string) : option string :=
  match s with
  | String "."%char r => Some r
  | _ => None
  end.

(** Modelled from the spec: the dotted-decimal parse behind
    [UTILS_StrToIP], [None] where the C function returns 0. *)
Definition dotted_quad (s : string) : option Z :=
  do x1 <- quad_octet s;
  do r1 <- quad_dot (snd x1);
  do x2 <- quad_octet r1;
  do r2 <- quad_dot (snd x2);
  do x3 <- quad_octet r2;
  do r3 <- quad_dot (snd x3);
  do x4 <- quad_octet r3;
  Some (fst x1 + 256 * fst x2 + 65536 * fst x3 + 16777216 * fst x4).

(** A command packet of the simulated platform: the declared argument
    count and, per argument, its byte length and value. *)
Record sim_packet : Type := mk_packet {
  sim_argc : Z;
  sim_args : list (Z * Z)
}.

Definition sim_pop (req : sim_packet) (len : Z) : option (Z * sim_packet) :=
  match sim_args req with
  | (l, v) :: rest =>
      if l =? len then Some (v, mk_packet (sim_argc req) rest) else None
  | [] => None
  end.

Definition sim_platform : Platform :=
  {| CmdPacket := sim_packet;
     CmdRequest := sim_packet;
     cmdRequest := fun p => p;
     cmdGetArgc := sim_argc;
     cmdPopArg := sim_pop;
     UTILS_StrToIP := dotted_quad |}.

(** 192.168.1.176 in memory order. *)
Definition ip_192_168_1_176 : Z := 192 + 256 * 168 + 65536 * 1 + 16777216 * 176.

Definition add_packet : sim_packet :=
  mk_packet 3 [(4, ip_192_168_1_176); (2, 80); (2, 9876)].

Definition remove_packet : sim_packet := mk_packet 1 [(2, 9876)].

(** An SSDP reply carrying the given LOCATION header line. *)
Definition ssdp_reply (location_line : string) : string :=
  "HTTP/1.1 200 OK" ++ crlf ++
  "CACHE-CONTROL: max-age=1800" ++ crlf ++
  location_line ++ crlf ++
  "SERVER: gateway UPnP/1.0" ++ crlf ++
  "ST: urn:schemas-upnp-org:device:InternetGatewayDevice:1" ++ crlf ++ crlf.

Definition service_block (stype sid url : string) : string :=
  "<service>" ++
  "<serviceType>" ++ stype ++ "</serviceType>" ++
  "<serviceId>" ++ sid ++ "</serviceId>" ++
  "<controlURL>" ++ url ++ "</controlURL>" ++
  "</service>".

(** A description reply naming the target service. *)
Definition description_body : string :=
  "HTTP/1.0 200 OK" ++ crlf ++ crlf ++
  "<root><device><serviceList>" ++
  service_block "urn:schemas-upnp-org:service:WANPPPConnection:1" service_id "/ctl" ++
  "</serviceList></device></root>".

(** A description reply with two service blocks, the target second. *)
Definition two_service_body : string :=
  "<root><device><serviceList>" ++
  service_block "urn:schemas-upnp-org:service:WANCommonInterfaceConfig:1"
                "urn:upnp-org:serviceId:WANCommonIFC1" "/other" ++
  service_block "urn:schemas-upnp-org:service:WANPPPConnection:1" service_id "/ctl" ++
  "</serviceList></device></root>".




Definition external_ip_reply : string :=
  "HTTP/1.0 200 OK" ++ crlf ++ crlf ++
  "<NewExternalIPAddress>83.134.116.129</NewExternalIPAddress>".

(** Discovery against a gateway whose LOCATION value follows the colon
    directly, up to the close of the description connection. *)
Definition discovery_events : list (@event sim_platform) :=
  [ CmdScan true true;
    SsdpRecv (ssdp_reply "LOCATION:http://192.168.1.1:8000/desc.xml");
    TcpConnect; TcpSent;
    TcpRecv description_body;
    TcpDiscon ].

(** One complete request/reply exchange on the control connection. *)
Definition exchange (reply : string) : list (@event sim_platform) :=
  [ TcpConnect; TcpSent; TcpRecv reply; TcpDiscon ].

Definition add_port_event : @event sim_platform := @CmdAddPort sim_platform add_packet.
Definition remove_port_event : @event sim_platform := @CmdRemovePort sim_platform remove_packet.

Definition sim_run : World -> list (@event sim_platform) -> option World :=
  @run sim_platform.

(** The session after discovery followed by one add-port exchange. *)
Definition add_port_session : list (@event sim_platform) :=
  (discovery_events ++ [add_port_event] ++ exchange "HTTP/1.0 200 OK")%list.

Definition remove_port_session : list (@event sim_platform) :=
  (discovery_events ++ [remove_port_event] ++ exchange "HTTP/1.0 200 OK")%list.

(** Packets the argument decoder rejects: a one-byte second argument, a
    four-byte port. *)
Definition bad_width_packet : sim_packet := mk_packet 3 [(4, 1); (1, 80); (2, 9876)].
Definition bad_remove_packet : sim_packet := mk_packet 1 [(4, 9876)].

(** ** Vocabulary of the properties *)

Section ArgumentDecoding.

Context `{Platform}.

(** The three pops of [cmdUPnPAddPort] all succeed. *)
Definition add_args_readable (cmd : CmdPacket) : Prop :=
  cmdGetArgc (cmdRequest cmd) = 3 /\
  exists v1 r1 v2 r2 v3 r3,
    cmdPopArg (cmdRequest cmd) 4 = Some (v1, r1) /\
    cmdPopArg r1 2 = Some (v2, r2) /\
    cmdPopArg r2 2 = Some (v3, r3).

(** The count is wrong, or one of the three pops fails. *)
Definition add_args_unreadable (cmd : CmdPacket) : Prop :=
  cmdGetArgc (cmdRequest cmd) <> 3 \/
  cmdPopArg (cmdRequest cmd) 4 = None \/
  (exists v1 r1, cmdPopArg (cmdRequest cmd) 4 = Some (v1, r1) /\
                 cmdPopArg r1 2 = None) \/
  (exists v1 r1 v2 r2, cmdPopArg (cmdRequest cmd) 4 = Some (v1, r1) /\
                       cmdPopArg r1 2 = Some (v2, r2) /\
                       cmdPopArg r2 2 = None).

Definition remove_args_readable (cmd : CmdPacket) : Prop :=
  cmdGetArgc (cmdRequest cmd) = 1 /\
  exists v r, cmdPopArg (cmdRequest cmd) 2 = Some (v, r).

Definition remove_args_unreadable (cmd : CmdPacket) : Prop :=
  cmdGetArgc (cmdRequest cmd) <> 1 \/
  cmdPopArg (cmdRequest cmd) 2 = None.

End ArgumentDecoding.

(** The world left by a scan that goes ahead. *)
Definition scan_started (w : World) (a : Z) : World :=
  mk_world upnp_multicasted 0 (strlen ssdp_message) (g_control_url w)
    (Some (set_con zalloc_client (Some (mk_espconn ESPCONN_UDP upnp_server_port a))))
    (CmdResponse 0 :: Espconn_sent ssdp_message :: Espconn_create :: trace w).

(** Retransmissions the send-completion callback may still make. *)
Definition budget (w : World) : Z :=
  if upnp_state_eqb (upnp_state w) upnp_multicasted
  then Z.max 0 (counter_max - counter w) else 0.

(** Six send-completion events in a row. *)
Definition six_completions : list (@event sim_platform) :=
  [SsdpSent; SsdpSent; SsdpSent; SsdpSent; SsdpSent; SsdpSent].

Fixpoint str_forall (P : ascii -> bool) (s : string) : bool :=
  match s with
  | EmptyString => true
  | String c r => (P c && str_forall P r)%bool
  end.


(** A byte of a location that carries no port: not NUL, not a colon. *)
Definition portless_char (c : ascii) : bool := negb (is_nul c || is_colon c).

Definition not_nul (c : ascii) : bool := negb (is_nul c).


(** The lexical view of a description body: the markers the scan reacts
    to, in buffer order. *)
Inductive token : Type :=
| TOpen
| TClose
| TSid
| TCtl (content : string).

Definition token_at (p : string) : option token :=
  if strncasecmp_eq p "<service>" 9 then Some TOpen
  else if strncasecmp_eq p "</service>" 10 then Some TClose
  else if strncasecmp_eq p service_id 34 then Some TSid
  else if strncasecmp_eq p "<controlURL>" 12 then Some (TCtl (tag_content p))
  else None.

Fixpoint tokens (p : string) : list token :=
  match p with
  | EmptyString => []
  | String _ r =>
      match token_at p with
      | Some t => t :: tokens r
      | None => tokens r
      end
  end.

Definition is_ctl (t : token) : bool :=
  match t with TCtl _ => true | _ => false end.




(** The scan read as a machine over tokens. *)
Definition token_step (st : scan_state) (t : token) : scan_state :=
  match t with
  | TOpen => mk_scan (inservice st + 1) (get_this st) (found_url st)
  | TClose => mk_scan (inservice st - 1) (get_this st) (found_url st)
  | TSid => mk_scan (inservice st) (inservice st) (found_url st)
  | TCtl u =>
      if get_this st =? inservice st
      then mk_scan (inservice st) (-1) (Some u)
      else st
  end.

(** What a receiver reads off a request: the value of its Content-Length
    header, and the bytes after the blank line that ends the headers (none
    when there is no blank line). *)
Definition content_length (q : string) : option Z :=
  match index 0 "Content-Length" q with
  | Some i =>
      match atoi_skip (str_drop (i + 14) q) with
      | String ":"%char r => Some (atoi r)
      | _ => None
      end
  | None => None
  end.

Definition http_body (q : string) : string :=
  match index 0 (crlf ++ crlf) q with
  | Some i => str_drop (i + 4) q
  | None => EmptyString
  end.

(** The text [upnp_query_remove_tmpl] expands to. *)
Definition remove_headers (u h : string) (n : Z) : string :=
  "POST " ++ u ++ " HTTP/1.0" ++ crlf ++
  "Host: " ++ h ++ crlf ++
  "User-Agent: esp-link" ++ crlf ++
  "Content-Length: " ++ dec n ++ crlf ++
  "Content-Type: text/xml" ++ crlf ++
  "SOAPAction: " ++ dq ++
    "urn:schemas-upnp-org:service:WANPPPConnection:1#DeletePortMapping" ++ dq ++ crlf ++
  "Connection: Close" ++ crlf ++
  "Cache-Control: no-cache" ++ crlf ++
  "Pragma: no-cache" ++ crlf.

(** The session once discovery has completed. *)
Definition ready_world : World :=
  match sim_run initial_world discovery_events with
  | Some w => w
  | None => initial_world
  end.

Definition ready_client : UPnPClient :=
  match the_client ready_world with
  | Some c => c
  | None => zalloc_client
  end.

(** The session as [cmdUPnPAddPort] and [cmdUPnPRemovePort] leave it for
    [upnp_query_igd]: 192.168.1.176:80 behind external port 9876. *)
Definition mapping_client : UPnPClient :=
  set_mapping ready_client ip_192_168_1_176 80 9876.

(** The exchange of the end-to-end scenario, for a given LOCATION line. *)
Definition discovery_scenario `{Platform} (line : string) : list event :=
  [ CmdScan true true;
    SsdpRecv (ssdp_reply line);
    TcpRecv description_body;
    TcpDiscon ].

(** The session in the middle of the description fetch. *)
Definition fetching_world : World :=
  match sim_run initial_world
          [ CmdScan true true;
            SsdpRecv (ssdp_reply "LOCATION:http://192.168.1.1:8000/desc.xml");
            TcpConnect; TcpSent ] with
  | Some w => w
  | None => initial_world
  end.

Definition fetching_client : UPnPClient :=
  match the_client fetching_world with
  | Some c => c
  | None => zalloc_client
  end.

(** The session after an add-port exchange has run to its disconnect. *)
Definition adding_world : World :=
  match sim_run initial_world add_port_session with
  | Some w => w
  | None => initial_world
  end.

(** The session with an external-address query outstanding. *)
Definition querying_events : list (@event sim_platform) :=
  (discovery_events ++ [CmdQueryExternalAddress; TcpConnect; TcpSent])%list.

Definition querying_world : World :=
  match sim_run initial_world querying_events with
  | Some w => w
  | None => initial_world
  end.

(** The session after a scan and six send completions. *)
Definition flooded_world : World :=
  match sim_run initial_world (CmdScan true true :: six_completions) with
  | Some w => w
  | None => initial_world
  end.

(** Split a conjunction into its parts, and nothing else. *)
Ltac split_all := repeat match goal with |- _ /\ _ => split end.

Section InvariantDef.

Context `{Platform}.

(** Facts that hold in every reachable world: a non-zero gateway address is
    the parse of the host; a discovery in progress has a fresh session; an
    operation in progress has a session with a gateway address. *)
Definition session_inv (w : World) : Prop :=
  (forall c, the_client w = Some c -> remote_ip c <> 0 ->
             exists h, host c = Some h /\ UTILS_StrToIP h = Some (remote_ip c)) /\
  (upnp_state w = upnp_multicasted ->
   exists c, the_client w = Some c /\ remote_ip c = 0) /\
  (upnp_state w = upnp_adding_port \/ upnp_state w = upnp_removing_port \/
   upnp_state w = upnp_query_extaddress ->
   exists c, the_client w = Some c /\ remote_ip c <> 0).

End InvariantDef.


(** ** Vocabulary of further properties *)

(** The eleven bytes the discovery callback looks for. *)
Definition location_marker : string := String CR (String LF "LOCATION:").

(** The value of the LOCATION header found at [i]: the bytes after the
    marker up to the next CR or NUL. *)
Definition location_value (pusrdata : string) (i : nat) : string :=
  let rest := str_drop (i + 11) pusrdata in
  str_take (span_until is_cr rest) rest.

(** Everything handed to [espconn_send] in a trace, in sending order. *)
Fixpoint sent_bytes (t : list effect) : string :=
  match t with
  | [] => EmptyString
  | Espconn_send b :: t' => sent_bytes t' ++ b
  | _ :: t' => sent_bytes t'
  end.

(** The text [upnp_general_query] expands to. *)
Definition get_request (p l : string) : string :=
  "GET " ++ p ++ " HTTP/1.0" ++ crlf ++
  "Host: " ++ l ++ crlf ++
  "Connection: close" ++ crlf ++
  "User-Agent: esp-link" ++ crlf ++ crlf.

(** The text [upnp_query_add_tmpl] expands to for a length [n] and a body. *)
Definition add_request_text (u h : string) (n : Z) (body : string) : string :=
  "POST " ++ u ++ " HTTP/1.0" ++ crlf ++
  "Host: " ++ h ++ crlf ++
  "User-Agent: esp-link" ++ crlf ++
  "Content-Length: " ++ dec n ++ crlf ++
  "Content-Type: text/xml" ++ crlf ++
  "SOAPAction: " ++ dq ++
    "urn:schemas-upnp-org:service:WANPPPConnection:1#AddPortMapping" ++ dq ++ crlf ++
  "Connection: Close" ++ crlf ++
  "Cache-Control: no-cache" ++ crlf ++
  "Pragma: no-cache" ++ crlf ++ crlf ++ body.

(** The add request around the XML [xml]: the body is [xml], the length
    announced is the length of [xml]. *)
Definition add_request (u h xml : string) : string :=
  add_request_text u h (strlen xml) xml.

(** The text [upnp_query_add_xml] expands to. *)
Definition add_xml (rp lp a b c d : Z) : string :=
  "<?xml version=" ++ dq ++ "1.0" ++ dq ++ "?>" ++ crlf ++
  "<s:Envelope xmlns:s=" ++ dq ++ "http://schemas.xmlsoap.org/soap/envelope/" ++ dq ++
  " s:encodingStyle=" ++ dq ++ "http://schemas.xmlsoap.org/soap/encoding/" ++ dq ++ ">" ++ crlf ++
  "<s:Body>" ++ crlf ++
  "<u:AddPortMapping xmlns:u=" ++ dq ++
    "urn:schemas-upnp-org:service:WANPPPConnection:1" ++ dq ++ ">" ++ crlf ++
  "<NewRemoteHost></NewRemoteHost>" ++ crlf ++
  "<NewExternalPort>" ++ dec rp ++ "</NewExternalPort>" ++ crlf ++
  "<NewProtocol>TCP</NewProtocol>" ++ crlf ++
  "<NewInternalPort>" ++ dec lp ++ "</NewInternalPort>" ++ crlf ++
  "<NewInternalClient>" ++ dec a ++ "." ++ dec b ++ "." ++ dec c ++ "." ++ dec d ++
    "</NewInternalClient>" ++ crlf ++
  "<NewEnabled>1</NewEnabled>" ++ crlf ++
  "<NewPortMappingDescription>libminiupnpc</NewPortMappingDescription>" ++ crlf ++
  "<NewLeaseDuration>0</NewLeaseDuration>" ++ crlf ++
  "</u:AddPortMapping>" ++ crlf ++
  "</s:Body>" ++ crlf ++
  "</s:Envelope>" ++ crlf.

(** The text [upnp_query_external_address] expands to for a length [n]
    and a body. *)
Definition extaddr_request_text (u h : string) (n : Z) (body : string) : string :=
  "POST " ++ u ++ " HTTP/1.0" ++ crlf ++
  "Host: " ++ h ++ crlf ++
  "User-Agent: esp-link" ++ crlf ++
  "Content-Length : " ++ dec n ++ crlf ++
  "Content-Type: text/xml" ++ crlf ++
  "SOAPAction: " ++ dq ++
    "urn:schemas-upnp-org:service:WANPPPConnection:1#GetExternalIPAddress" ++ dq ++ crlf ++
  "Connection: Close" ++ crlf ++
  "Cache-Control: no-cache" ++ crlf ++
  "Pragma: no-cache" ++ crlf ++ crlf ++ body.

Definition extaddr_request (u h xml : string) : string :=
  extaddr_request_text u h (strlen xml) xml.

(** The XML of the remove request, which the request itself leaves out. *)
Definition remove_xml (rp : Z) : string :=
  "<?xml version=" ++ dq ++ "1.0" ++ dq ++ "?>" ++ crlf ++
  "<s:Envelope xmlns:s=" ++ dq ++ "http://schemas.xmlsoap.org/soap/envelope/" ++ dq ++ crlf ++
  "    s:encodingStyle=" ++ dq ++ "http://schemas.xmlsoap.org/soap/encoding/" ++ dq ++ ">" ++ crlf ++
  "  <s:Body>" ++ crlf ++
  "    <u:DeletePortMapping xmlns:u=" ++ dq ++
    "urn:schemas-upnp-org:service:WANPPPConnection:1" ++ dq ++ ">" ++ crlf ++
  "    <NewRemoteHost>" ++ crlf ++
  "    </NewRemoteHost>" ++ crlf ++
  "    <NewExternalPort>" ++ dec rp ++ "</NewExternalPort>" ++ crlf ++
  "    <NewProtocol>TCP</NewProtocol>" ++ crlf ++
  "  </u:DeletePortMapping>" ++ crlf ++
  "  </s:Body>" ++ crlf ++
  "</s:Envelope>" ++ crlf.

Fixpoint str_map (f : ascii -> ascii) (s : string) : string :=
  match s with
  | EmptyString => EmptyString
  | String c r => String (f c) (str_map f r)
  end.

(** An operation accepted from Ready: the reply 0, a connect to the
    gateway address of the session [c], the new state [s], and the request
    for that state waiting in the buffer. *)
Definition started (w : World) (c : UPnPClient) (s : upnp_state_t) (w' : World) : Prop :=
  upnp_state w' = s /\
  trace w' = CmdResponse 0 :: Espconn_connect (remote_ip c) (control_port c) :: trace w /\
  exists c' q,
    the_client w' = Some c' /\
    build_query s c' = Some (Some q) /\
    data c' = Some q /\ data_len c' = uint16 (strlen q) /\
    remote_ip c' = remote_ip c /\ control_url c' = control_url c /\
    host c' = host c.

(** What the two send callbacks hand to the transport for a buffer [q]. *)
Definition chunks (q : string) : list effect :=
  if strlen q <=? 1400 then [Espconn_send q]
  else [Espconn_send (str_drop 1400 q); Espconn_send (str_take 1400 q)].

(** The part of a request the transport is handed: the session's length
    field is 16 bits wide, so of a request [q] only the first
    [strlen q mod 65536] bytes count. *)
Definition sent_prefix (q : string) : string :=
  str_take (Z.to_nat (uint16 (strlen q))) q.

(** A marker that neither records an identifier depth nor lowers the
    depth. *)
Definition quiet_token (t : token) : bool :=
  match t with
  | TSid | TClose => false
  | _ => true
  end.

(** The states that follow a LOCATION reply. *)
Definition past_discovery (s : upnp_state_t) : bool :=
  match s with
  | upnp_none | upnp_multicasted => false
  | _ => true
  end.

(** The session holds the three strings the location analyzer stores, and
    host and path split the location after its first 7 bytes. *)
Definition discovered (c : UPnPClient) : Prop :=
  exists h p l, host c = Some h /\ path c = Some p /\ location c = Some l /\
                h ++ p = str_drop 7 l.

Definition discovery_inv (w : World) : Prop :=
  past_discovery (upnp_state w) = true ->
  exists c, the_client w = Some c /\ discovered c.


(** The three operation states. *)
Definition is_operation (s : upnp_state_t) : bool :=
  match s with
  | upnp_adding_port | upnp_removing_port | upnp_query_extaddress => true
  | _ => false
  end.

(** The session right after a scan request, waiting for replies. *)
Definition scanning_world : World :=
  cmdUPnPScan (H := sim_platform) true true initial_world.

(** A multicast datagram that carries no LOCATION header. *)
Definition notify_datagram : string :=
  "NOTIFY * HTTP/1.1" ++ crlf ++
  "HOST: 239.255.255.250:1900" ++ crlf ++
  "NTS: ssdp:alive" ++ crlf ++ crlf.

(** The session after discovery against a gateway whose LOCATION line has
    the usual blank after the colon. *)
Definition blank_location_world : World :=
  match sim_run initial_world
          (discovery_scenario "LOCATION: http://192.168.1.1:8000/desc.xml") with
  | Some w => w
  | None => initial_world
  end.

Definition blank_location_client : UPnPClient :=
  match the_client blank_location_world with
  | Some c => c
  | None => zalloc_client
  end.

(** A session about to send a request of 3000 bytes. *)
Definition long_request : string :=
  string_of_list_ascii (List.repeat "x"%char 3000).

Definition long_request_client : UPnPClient :=
  set_data ready_client (Some long_request) 3000.

Definition long_request_world : World :=
  set_client ready_world (Some long_request_client).

Definition scanning_client : UPnPClient :=
  match the_client scanning_world with
  | Some c => c
  | None => zalloc_client
  end.

Definition querying_client : UPnPClient :=
  match the_client querying_world with
  | Some c => c
  | None => zalloc_client
  end.

(** A discovery reply with the usual blank after the header name. *)
Definition reply_datagram : string :=
  ssdp_reply "LOCATION: http://192.168.1.1:8000/desc.xml".

(** The start of a description reply, cut before the service identifier. *)
Definition first_segment : string :=
  "HTTP/1.0 200 OK" ++ crlf ++ crlf ++
  "<root><device><serviceList><service>" ++
  "<serviceType>urn:schemas-upnp-org:service:WANPPPConnection:1</serviceType>" ++
  "<controlURL>/early</controlURL><serviceId>urn:upnp-org:".

(** A body that closes a service block it never opened. *)
Definition stray_close_body : string :=
  "<root></service><controlURL>/stray</controlURL></root>".
(** * Properties *)

(** Sanity checks on the rendering of [%d] and on the literals. *)
Example dec_examples : dec 0 = "0" /\ dec 9876 = "9876" /\ dec (-1) = "-1".
Proof. split_all; reflexivity. Qed.

Example template_lengths :
  strlen upnp_query_external_address_xml = 296 /\
  strlen ssdp_message = 135 /\
  strlen upnp_query_add_xml = 616 /\
  strlen upnp_query_remove_xml = 427.
Proof. split_all; reflexivity. Qed.


Section StateMachine.

Context `{Platform}.

Lemma upnp_state_eqb_eq (a b : upnp_state_t) :
  upnp_state_eqb a b = true <-> a = b.
Proof. destruct a, b; simpl; split; intro E; congruence. Qed.

Lemma upnp_state_eqb_neq (a b : upnp_state_t) :
  a <> b -> upnp_state_eqb a b = false.
Proof.
  intro N. destruct (upnp_state_eqb a b) eqn:E; [|reflexivity].
  apply upnp_state_eqb_eq in E. contradiction.
Qed.

(** What a disconnect does to the state: only the description fetch
    advances. *)
Lemma discon_cb_state (w w' : World) :
  upnp_tcp_discon_cb w = Some w' ->
  upnp_state w' = match upnp_state w with
                  | upnp_found_igd => upnp_ready
                  | s => s
                  end.
Proof.
  unfold upnp_tcp_discon_cb. destruct (the_client w) as [c|]; simpl; [|discriminate].
  destruct (upnp_state w) eqn:E; intro Q; inversion Q; subst; simpl; auto.
Qed.

Lemma gateway_ready_not_ready (w : World) :
  upnp_state w <> upnp_ready -> gateway_ready w = None.
Proof.
  intro N. unfold gateway_ready. destruct (the_client w) as [c|]; [|reflexivity].
  rewrite (upnp_state_eqb_neq _ _ N). simpl. rewrite orb_true_r. reflexivity.
Qed.

(** C10: an AddPort command whose argument count is not 3 or one of whose
    three arguments cannot be popped, and a RemovePort command whose
    argument count is not 1 or whose port cannot be popped, leave the
    world exactly as it was: no reply is recorded in the trace, the state
    and the session are unchanged, and no connection is opened. *)
Theorem C10_unreadable_commands_are_dropped
  (cmd_add cmd_remove : CmdPacket) (w : World) :
  add_args_unreadable cmd_add ->
  remove_args_unreadable cmd_remove ->
  cmdUPnPAddPort cmd_add w = Some w /\
  cmdUPnPRemovePort cmd_remove w = Some w.
Proof.
  intros Ha Hr. split.
  - unfold cmdUPnPAddPort.
    destruct Ha as [Hc | [Hp | [(v1 & r1 & E1 & E2) | (v1 & r1 & v2 & r2 & E1 & E2 & E3)]]].
    + destruct (cmdGetArgc (cmdRequest cmd_add) =? 3) eqn:E; [|reflexivity].
      apply Z.eqb_eq in E. contradiction.
    + destruct (negb _); [reflexivity|]. rewrite Hp. reflexivity.
    + destruct (negb _); [reflexivity|]. rewrite E1, E2. reflexivity.
    + destruct (negb _); [reflexivity|]. rewrite E1, E2, E3. reflexivity.
  - unfold cmdUPnPRemovePort. destruct Hr as [Hc | Hp].
    + destruct (cmdGetArgc (cmdRequest cmd_remove) =? 1) eqn:E; [|reflexivity].
      apply Z.eqb_eq in E. contradiction.
    + destruct (negb _); [reflexivity|]. rewrite Hp. reflexivity.
Qed.

Lemma scan_not_ready (w : World) (a : Z) :
  upnp_state w <> upnp_ready ->
  UTILS_StrToIP upnp_ssdp_multicast = Some a ->
  cmdUPnPScan true true w = scan_started w a.
Proof.
  intros N E. unfold cmdUPnPScan. rewrite (upnp_state_eqb_neq _ _ N). simpl.
  rewrite E. reflexivity.
Qed.

(** C7 (amended): while the state is not Ready, an AddPort or RemovePort
    request with readable arguments gets the reply -1, and so does a
    QueryExternalAddress request unless the state is QueryingExternalAddress;
    in each case nothing but that reply changes: same state, same session,
    no connection.  A scan request is not rejected outside Ready: whatever
    the state, it abandons the session and starts a new discovery. *)
Theorem C7_busy_replies_and_scan_restart
  (cmd_add cmd_remove : CmdPacket) (w : World) (a : Z) :
  upnp_state w <> upnp_ready ->
  add_args_readable cmd_add ->
  remove_args_readable cmd_remove ->
  UTILS_StrToIP upnp_ssdp_multicast = Some a ->
  cmdUPnPAddPort cmd_add w = Some (respond (-1) w) /\
  cmdUPnPRemovePort cmd_remove w = Some (respond (-1) w) /\
  (upnp_state w <> upnp_query_extaddress ->
   cmdUPnPQueryExternalAddress w = Some (respond (-1) w)) /\
  cmdUPnPScan true true w = scan_started w a.
Proof.
  intros N (Ca & v1 & r1 & v2 & r2 & v3 & r3 & E1 & E2 & E3) (Cr & v & r & E) Hm.
  split_all.
  - unfold cmdUPnPAddPort. rewrite Ca, E1, E2, E3. simpl.
    rewrite (gateway_ready_not_ready _ N). reflexivity.
  - unfold cmdUPnPRemovePort. rewrite Cr, E. simpl.
    rewrite (gateway_ready_not_ready _ N). reflexivity.
  - intro Nq. unfold cmdUPnPQueryExternalAddress.
    destruct (the_client w) as [c|]; [|reflexivity].
    destruct (remote_ip c =? 0); [reflexivity|].
    destruct (upnp_state w); try reflexivity; contradiction.
  - apply scan_not_ready; assumption.
Qed.

End StateMachine.

Section Invariant.

Context `{Platform}.

Lemma query_igd_facts (c : UPnPClient) (w0 w' : World) :
  upnp_query_igd c w0 = Some w' ->
  upnp_state w' = upnp_state w0 /\
  exists c', the_client w' = Some c' /\ host c' = host c /\
             (remote_ip c' = remote_ip c \/
              exists h, host c = Some h /\ UTILS_StrToIP h = Some (remote_ip c')).
Proof.
  unfold upnp_query_igd.
  destruct (build_query _ _) as [[q|]|]; simpl; try discriminate.
  - destruct (host c) as [h|] eqn:Eh; simpl; [|discriminate].
    destruct (UTILS_StrToIP h) as [a|] eqn:Ea; intro Q; inversion Q; subst; simpl.
    + split; [reflexivity|]. eexists. split; [reflexivity|]. simpl.
      split; [assumption|]. right. exists h. split; [reflexivity|assumption].
    + split; [reflexivity|]. eexists. split; [reflexivity|]. simpl.
      split; [assumption|]. left. reflexivity.
  - intro Q; inversion Q; subst; simpl.
    split; [reflexivity|]. eexists. split; [reflexivity|]. simpl.
    split; [reflexivity|]. left. reflexivity.
Qed.

Lemma gateway_ready_some (w : World) (c : UPnPClient) :
  gateway_ready w = Some c ->
  the_client w = Some c /\ remote_ip c <> 0 /\ upnp_state w = upnp_ready.
Proof.
  unfold gateway_ready. destruct (the_client w) as [c0|]; [|discriminate].
  destruct (remote_ip c0 =? 0) eqn:Ez; simpl; [discriminate|].
  destruct (upnp_state_eqb (upnp_state w) upnp_ready) eqn:Es; simpl; [|discriminate].
  intro Q; inversion Q; subst. apply Z.eqb_neq in Ez.
  apply upnp_state_eqb_eq in Es. auto.
Qed.

(** An operation started from Ready keeps the gateway address. *)
Lemma inv_after_operation (w w1 : World) (c c1 : UPnPClient) (s : upnp_state_t) :
  session_inv w ->
  the_client w = Some c -> remote_ip c <> 0 ->
  host c1 = host c -> remote_ip c1 = remote_ip c ->
  upnp_query_igd c1 (set_state w s) = Some w1 ->
  s <> upnp_multicasted ->
  session_inv (respond 0 w1).
Proof.
  intros (I2 & _ & _) Ec Nz Eh Er Q Ns.
  destruct (query_igd_facts _ _ _ Q) as (Es & c' & Ec' & Eh' & D).
  destruct (I2 c Ec Nz) as (h & Hh & Hp).
  assert (Er' : remote_ip c' = remote_ip c).
  { destruct D as [D | (h' & Hh' & Hp')]; [congruence|].
    rewrite Eh, Hh in Hh'. inversion Hh'; subst. congruence. }
  split; [|split]; simpl.
  - intros c0 E0 _. rewrite Ec' in E0. inversion E0; subst.
    exists h. split; congruence.
  - intro E. rewrite Es in E. simpl in E. contradiction.
  - intros _. exists c'. split; [assumption|congruence].
Qed.

(** A step that keeps the host and the gateway address of the session, and
    either keeps the state or falls back to Idle or Ready. *)
Lemma inv_preserved (w w' : World) :
  session_inv w ->
  (upnp_state w' = upnp_state w \/ upnp_state w' = upnp_ready \/
   upnp_state w' = upnp_none) ->
  (forall c', the_client w' = Some c' ->
     exists c, the_client w = Some c /\ host c' = host c /\
               remote_ip c' = remote_ip c) ->
  (forall c, the_client w = Some c ->
     exists c', the_client w' = Some c' /\ remote_ip c' = remote_ip c) ->
  session_inv w'.
Proof.
  intros (I2 & I3 & I1) Hs Hb Hf. split; [|split].
  - intros c' E' N'. destruct (Hb c' E') as (c & Ec & Eh & Er).
    rewrite Er in N'. destruct (I2 c Ec N') as (h & Hh & Hp).
    exists h. split; congruence.
  - intro E. destruct Hs as [Hs | [Hs | Hs]]; try congruence.
    rewrite Hs in E. destruct (I3 E) as (c & Ec & Ez).
    destruct (Hf c Ec) as (c' & Ec' & Er). exists c'. split; congruence.
  - intro E. destruct Hs as [Hs | [Hs | Hs]].
    + rewrite Hs in E. destruct (I1 E) as (c & Ec & Ez).
      destruct (Hf c Ec) as (c' & Ec' & Er). exists c'. split; congruence.
    + rewrite Hs in E. destruct E as [E | [E | E]]; discriminate.
    + rewrite Hs in E. destruct E as [E | [E | E]]; discriminate.
Qed.

Ltac same_client :=
  match goal with
  | |- forall c', Some _ = Some c' -> exists c, _ =>
      let E := fresh in intros ? E; inversion E; subst; eexists;
      split; [eassumption || reflexivity|]; simpl; split; reflexivity
  | |- forall c, Some _ = Some c -> exists c', _ =>
      let E := fresh in intros ? E; inversion E; subst; eexists;
      split; [reflexivity|]; simpl; reflexivity
  | |- forall c, None = Some c -> _ => intros ? ?; discriminate
  | |- forall c, _ = Some c -> exists c', _ =>
      let E := fresh in intros ? E; eexists; split; [exact E | split; reflexivity]
  | |- forall c, _ = Some c -> exists c', _ =>
      let E := fresh in intros ? E; eexists; split; [exact E | reflexivity]
  end.

Lemma session_inv_step (w w' : World) (e : event) :
  session_inv w -> step w e = Some w' -> session_inv w'.
Proof.
  intros I S. pose proof I as (I2 & I3 & I1).
  destruct e; simpl in S.
  - (* cmdUPnPBegin *)
    inversion S; subst. split; [|split]; simpl; try discriminate.
    intros [E | [E | E]]; discriminate.
  - (* cmdUPnPScan *)
    inversion S; subst. clear S. unfold cmdUPnPScan.
    destruct (upnp_state_eqb (upnp_state w) upnp_ready) eqn:Er.
    + destruct (the_client w) as [c|] eqn:Ec;
        (apply (inv_preserved w); [exact I | left; reflexivity | |]);
        simpl; rewrite Ec; same_client.
    + destruct alloc_con; simpl.
      2:{ apply (inv_preserved w); [exact I | right; right; reflexivity | |];
          simpl; same_client. }
      destruct alloc_udp; simpl.
      2:{ apply (inv_preserved w); [exact I | right; right; reflexivity | |];
          simpl; same_client. }
      destruct (UTILS_StrToIP upnp_ssdp_multicast) as [a|]; split; [|split|idtac|split];
        simpl; try discriminate.
      * intros c E N. inversion E; subst. simpl in N. contradiction.
      * intros _. eexists. split; reflexivity.
      * intros [E | [E | E]]; discriminate.
      * intros c E N. inversion E; subst. simpl in N. contradiction.
      * intros [E | [E | E]]; discriminate.
  - (* cmdUPnPAddPort *)
    unfold cmdUPnPAddPort in S.
    destruct (negb _); [inversion S; subst; exact I|].
    destruct (cmdPopArg _ 4) as [[v1 r1]|]; [|inversion S; subst; exact I].
    destruct (cmdPopArg r1 2) as [[v2 r2]|]; [|inversion S; subst; exact I].
    destruct (cmdPopArg r2 2) as [[v3 r3]|]; [|inversion S; subst; exact I].
    destruct (gateway_ready w) as [c|] eqn:G.
    + apply gateway_ready_some in G. destruct G as (Ec & Nz & _).
      destruct (upnp_query_igd _ _) as [w1|] eqn:Q; simpl in S; [|discriminate].
      inversion S; subst.
      match type of Q with
      | upnp_query_igd ?c1 (set_state _ ?s) = _ =>
          refine (inv_after_operation w w1 c c1 s I Ec Nz eq_refl eq_refl Q _)
      end; discriminate.
    + inversion S; subst.
      apply (inv_preserved w); [exact I | left; reflexivity | |]; simpl; same_client.
  - (* cmdUPnPRemovePort *)
    unfold cmdUPnPRemovePort in S.
    destruct (negb _); [inversion S; subst; exact I|].
    destruct (cmdPopArg _ 2) as [[v1 r1]|]; [|inversion S; subst; exact I].
    destruct (gateway_ready w) as [c|] eqn:G.
    + apply gateway_ready_some in G. destruct G as (Ec & Nz & _).
      destruct (upnp_query_igd _ _) as [w1|] eqn:Q; simpl in S; [|discriminate].
      inversion S; subst.
      match type of Q with
      | upnp_query_igd ?c1 (set_state _ ?s) = _ =>
          refine (inv_after_operation w w1 c c1 s I Ec Nz eq_refl eq_refl Q _)
      end; discriminate.
    + inversion S; subst.
      apply (inv_preserved w); [exact I | left; reflexivity | |]; simpl; same_client.
  - (* cmdUPnPQueryExternalAddress *)
    unfold cmdUPnPQueryExternalAddress in S.
    destruct (the_client w) as [c|] eqn:Ec.
    2:{ inversion S; subst.
        apply (inv_preserved w); [exact I | left; reflexivity | |]; simpl;
          rewrite Ec; same_client. }
    destruct (remote_ip c =? 0) eqn:Ez.
    { inversion S; subst.
      apply (inv_preserved w); [exact I | left; reflexivity | |]; simpl;
        rewrite Ec; same_client. }
    apply Z.eqb_neq in Ez.
    destruct (upnp_state w) eqn:Es;
      try (inversion S; subst;
           apply (inv_preserved w); [exact I | left; simpl; congruence | |]; simpl;
           rewrite Ec; same_client).
    + destruct (upnp_query_igd _ _) as [w1|] eqn:Q; simpl in S; [|discriminate].
      inversion S; subst.
      match type of Q with
      | upnp_query_igd ?c1 (set_state _ ?s) = _ =>
          refine (inv_after_operation w w1 c c1 s I Ec Ez eq_refl eq_refl Q _)
      end; discriminate.
    + inversion S; subst. clear S.
      destruct (negb (external_address c =? 0));
        (apply (inv_preserved w);
         [exact I | simpl; auto | |]); simpl; rewrite Ec; same_client.
  - (* ssdp_recv_cb *)
    unfold ssdp_recv_cb in S.
    destruct (upnp_state w) eqn:Es; try (inversion S; subst; exact I).
    destruct (I3 eq_refl) as (c & Ec & Ez). rewrite Ec in S. simpl in S.
    destruct (find_location _ _ _) as [i|]; [|inversion S; subst; exact I].
    destruct (upnp_analyze_location _ _ _) as [c1|] eqn:Ea; simpl in S; [|discriminate].
    destruct (query_igd_facts _ _ _ S) as (Es' & c' & Ec' & Eh' & D).
    simpl in Es', Eh', D.
    assert (Er1 : remote_ip c1 = 0).
    { unfold upnp_analyze_location in Ea. destruct (Nat.ltb _ 7); [discriminate|].
      inversion Ea; subst. simpl. assumption. }
    split; [|split].
    + intros c0 E0 N0. rewrite Ec' in E0. inversion E0; subst.
      destruct D as [D | (h & Hh & Hp)]; [congruence|].
      exists h. split; congruence.
    + rewrite Es'. discriminate.
    + rewrite Es'. intros [E | [E | E]]; discriminate.
  - (* ssdp_sent_cb *)
    inversion S; subst. clear S. unfold ssdp_sent_cb.
    destruct (_ && _)%bool; [|exact I].
    apply (inv_preserved w); [exact I | left; reflexivity | |]; simpl; same_client.
  - (* upnp_tcp_connect_cb *)
    unfold upnp_tcp_connect_cb in S.
    destruct (the_client w) as [c|] eqn:Ec; simpl in S; [|discriminate].
    inversion S; subst. clear S.
    apply (inv_preserved w); [exact I | left; reflexivity | |]; simpl;
      rewrite Ec; same_client.
  - (* upnp_tcp_sent_cb *)
    unfold upnp_tcp_sent_cb in S.
    destruct (the_client w) as [c|] eqn:Ec; simpl in S; [|discriminate].
    destruct (negb _); inversion S; subst; clear S;
      (apply (inv_preserved w); [exact I | left; reflexivity | |]); simpl;
      rewrite Ec; same_client.
  - (* upnp_tcp_recv_cb *)
    unfold upnp_tcp_recv_cb in S.
    destruct (upnp_state w) eqn:Es; try (inversion S; subst; exact I).
    + destruct (the_client w) as [c|] eqn:Ec; simpl in S; [|discriminate].
      destruct (found_url _); inversion S; subst; [|exact I]. clear S.
      apply (inv_preserved w); [exact I | left; reflexivity | |]; simpl;
        rewrite Ec; same_client.
    + destruct (the_client w) as [c|] eqn:Ec; simpl in S; [|discriminate].
      destruct (has_external_ip_tag pdata); [|inversion S; subst; exact I].
      destruct (host c) as [h|] eqn:Eh; simpl in S; [|discriminate].
      destruct (UTILS_StrToIP h); inversion S; subst; [|exact I]. clear S.
      apply (inv_preserved w); [exact I | left; reflexivity | |]; simpl;
        rewrite Ec; same_client.
  - (* upnp_tcp_discon_cb *)
    unfold upnp_tcp_discon_cb in S.
    destruct (the_client w) as [c|] eqn:Ec; simpl in S; [|discriminate].
    destruct (upnp_state w) eqn:Es; inversion S; subst; clear S;
      (apply (inv_preserved w); [exact I | simpl; auto | |]); simpl;
      rewrite Ec; same_client.
  - (* upnp_tcp_recon_cb *)
    inversion S; subst. exact I.
  - (* upnp_dns_found *)
    inversion S; subst. clear S. unfold upnp_dns_found.
    destruct ipaddr as [a|]; [|exact I].
    destruct (the_client w) as [c|] eqn:Ec; [|exact I].
    destruct (remote_ip c =? 0) eqn:Ez; simpl; [|exact I].
    destruct (negb (a =? 0)); [|exact I].
    apply (inv_preserved w); [exact I | left; reflexivity | |]; simpl;
      rewrite Ec; same_client.
Qed.

Lemma session_inv_run (evs : list event) (w w' : World) :
  session_inv w -> run w evs = Some w' -> session_inv w'.
Proof.
  revert w. induction evs as [|e evs IH]; intros w I R; simpl in R.
  - inversion R; subst. exact I.
  - destruct (step w e) as [w1|] eqn:S; simpl in R; [|discriminate].
    eapply IH; [|exact R]. eapply session_inv_step; eauto.
Qed.

Lemma session_inv_initial : session_inv initial_world.
Proof.
  split; [|split]; simpl; try discriminate.
  intros [E | [E | E]]; discriminate.
Qed.

Lemma reachable_inv (w : World) : reachable w -> session_inv w.
Proof.
  intros (evs & R). eapply session_inv_run; [apply session_inv_initial|exact R].
Qed.

(** C8: in a reachable world whose state is QueryingExternalAddress, a
    poll that finds no external address yet replies 0 and changes nothing
    else (same state, same session, no second request); a poll that finds
    the address populated replies with it and moves the state to Ready. *)
Theorem C8_external_address_poll (w : World) :
  reachable w ->
  upnp_state w = upnp_query_extaddress ->
  exists c, the_client w = Some c /\
    (external_address c = 0 ->
     cmdUPnPQueryExternalAddress w = Some (respond 0 w)) /\
    (external_address c <> 0 ->
     cmdUPnPQueryExternalAddress w =
       Some (respond (external_address c) (set_state w upnp_ready))).
Proof.
  intros R Es. destruct (reachable_inv w R) as (_ & _ & I1).
  destruct (I1 (or_intror (or_intror Es))) as (c & Ec & Nz).
  exists c. split; [assumption|].
  unfold cmdUPnPQueryExternalAddress. rewrite Ec, Es.
  apply Z.eqb_neq in Nz. rewrite Nz.
  split; intro E.
  - rewrite E. reflexivity.
  - apply Z.eqb_neq in E. rewrite E. reflexivity.
Qed.

End Invariant.

Section Retransmission.

Context `{Platform}.

Lemma budget_nonneg (w : World) : 0 <= budget w.
Proof. unfold budget. destruct (upnp_state_eqb _ _); lia. Qed.

(** A step that sends no datagram and does not enter Discovering cannot
    raise sends plus budget. *)
Lemma quiet_budget (w w' : World) :
  ssdp_sends (trace w') = ssdp_sends (trace w) ->
  (upnp_state w' = upnp_multicasted ->
   upnp_state w = upnp_multicasted /\ counter w' = counter w) ->
  ssdp_sends (trace w') + budget w' <= ssdp_sends (trace w) + budget w.
Proof.
  intros Et Hs. rewrite Et. unfold budget.
  destruct (upnp_state_eqb (upnp_state w') upnp_multicasted) eqn:E'.
  - apply upnp_state_eqb_eq in E'. destruct (Hs E') as (E & Ec).
    rewrite E, Ec. simpl. lia.
  - destruct (upnp_state_eqb (upnp_state w) upnp_multicasted); lia.
Qed.

Lemma query_igd_quiet (c : UPnPClient) (w0 w' : World) :
  upnp_query_igd c w0 = Some w' ->
  upnp_state w' = upnp_state w0 /\ counter w' = counter w0 /\
  ssdp_sends (trace w') = ssdp_sends (trace w0).
Proof.
  unfold upnp_query_igd.
  destruct (build_query _ _) as [[q|]|]; simpl; try discriminate.
  - destruct (host c) as [h|]; simpl; [|discriminate].
    destruct (UTILS_StrToIP h); intro Q; inversion Q; subst; simpl; auto.
  - intro Q; inversion Q; subst; simpl; auto.
Qed.

Lemma step_budget (w w' : World) (e : event) :
  is_scan e = false ->
  step w e = Some w' ->
  ssdp_sends (trace w') + budget w' <= ssdp_sends (trace w) + budget w.
Proof.
  intros Ns S. destruct e; simpl in Ns, S; try discriminate.
  - (* cmdUPnPBegin *)
    inversion S; subst. apply quiet_budget; simpl; [reflexivity|discriminate].
  - (* cmdUPnPAddPort *)
    unfold cmdUPnPAddPort in S.
    destruct (negb _); [inversion S; subst; lia|].
    destruct (cmdPopArg _ 4) as [[v1 r1]|]; [|inversion S; subst; lia].
    destruct (cmdPopArg r1 2) as [[v2 r2]|]; [|inversion S; subst; lia].
    destruct (cmdPopArg r2 2) as [[v3 r3]|]; [|inversion S; subst; lia].
    destruct (gateway_ready w) as [c|].
    + destruct (upnp_query_igd _ _) as [w1|] eqn:Q; simpl in S; [|discriminate].
      inversion S; subst. destruct (query_igd_quiet _ _ _ Q) as (Es & Ec & Et).
      apply quiet_budget; simpl; [exact Et|]. rewrite Es. simpl. discriminate.
    + inversion S; subst. apply quiet_budget; simpl; auto.
  - (* cmdUPnPRemovePort *)
    unfold cmdUPnPRemovePort in S.
    destruct (negb _); [inversion S; subst; lia|].
    destruct (cmdPopArg _ 2) as [[v1 r1]|]; [|inversion S; subst; lia].
    destruct (gateway_ready w) as [c|].
    + destruct (upnp_query_igd _ _) as [w1|] eqn:Q; simpl in S; [|discriminate].
      inversion S; subst. destruct (query_igd_quiet _ _ _ Q) as (Es & Ec & Et).
      apply quiet_budget; simpl; [exact Et|]. rewrite Es. simpl. discriminate.
    + inversion S; subst. apply quiet_budget; simpl; auto.
  - (* cmdUPnPQueryExternalAddress *)
    unfold cmdUPnPQueryExternalAddress in S.
    destruct (the_client w) as [c|];
      [|inversion S; subst; apply quiet_budget; simpl; auto].
    destruct (remote_ip c =? 0);
      [inversion S; subst; apply quiet_budget; simpl; auto|].
    destruct (upnp_state w) eqn:Es;
      try (inversion S; subst; apply quiet_budget; simpl; auto; fail).
    + destruct (upnp_query_igd _ _) as [w1|] eqn:Q; simpl in S; [|discriminate].
      inversion S; subst. destruct (query_igd_quiet _ _ _ Q) as (Es' & Ec & Et).
      apply quiet_budget; simpl; [exact Et|]. rewrite Es'. simpl. discriminate.
    + inversion S; subst.
      destruct (negb (external_address c =? 0)); apply quiet_budget; simpl; auto;
        rewrite Es; discriminate.
  - (* ssdp_recv_cb *)
    unfold ssdp_recv_cb in S.
    destruct (upnp_state w) eqn:Es; try (inversion S; subst; lia).
    destruct (the_client w) as [c|]; simpl in S; [|discriminate].
    destruct (find_location _ _ _) as [i|]; [|inversion S; subst; lia].
    destruct (upnp_analyze_location _ _ _) as [c1|]; simpl in S; [|discriminate].
    destruct (query_igd_quiet _ _ _ S) as (Es' & Ec & Et). simpl in Es', Ec, Et.
    apply quiet_budget; [exact Et|]. rewrite Es'. discriminate.
  - (* ssdp_sent_cb *)
    inversion S; subst. clear S. unfold ssdp_sent_cb.
    destruct (upnp_state_eqb (upnp_state w) upnp_multicasted) eqn:Es;
      destruct (counter w <? counter_max) eqn:Ec; cbn [andb]; try lia.
    unfold budget. cbn [emit set_counter upnp_state counter trace ssdp_sends].
    rewrite Es. apply Z.ltb_lt in Ec. unfold counter_max in *. lia.
  - (* upnp_tcp_connect_cb *)
    unfold upnp_tcp_connect_cb in S.
    destruct (the_client w) as [c|]; simpl in S; [|discriminate].
    inversion S; subst. apply quiet_budget; simpl; auto.
  - (* upnp_tcp_sent_cb *)
    unfold upnp_tcp_sent_cb in S.
    destruct (the_client w) as [c|]; simpl in S; [|discriminate].
    destruct (negb _); inversion S; subst; apply quiet_budget; simpl; auto.
  - (* upnp_tcp_recv_cb *)
    unfold upnp_tcp_recv_cb in S.
    destruct (upnp_state w) eqn:Es; try (inversion S; subst; lia).
    + destruct (the_client w) as [c|]; simpl in S; [|discriminate].
      destruct (found_url _); inversion S; subst; [|lia].
      apply quiet_budget; simpl; auto.
    + destruct (the_client w) as [c|]; simpl in S; [|discriminate].
      destruct (has_external_ip_tag pdata); [|inversion S; subst; lia].
      destruct (host c) as [h|]; simpl in S; [|discriminate].
      destruct (UTILS_StrToIP h); inversion S; subst; [|lia].
      apply quiet_budget; simpl; auto.
  - (* upnp_tcp_discon_cb *)
    unfold upnp_tcp_discon_cb in S.
    destruct (the_client w) as [c|]; simpl in S; [|discriminate].
    destruct (upnp_state w) eqn:Es; inversion S; subst;
      apply quiet_budget; simpl; auto; discriminate.
  - (* upnp_tcp_recon_cb *)
    inversion S; subst. unfold upnp_tcp_recon_cb. lia.
  - (* upnp_dns_found *)
    inversion S; subst. clear S. unfold upnp_dns_found.
    destruct ipaddr as [a|]; [|lia].
    destruct (the_client w) as [c|]; [|lia].
    destruct (_ && _)%bool; [|lia].
    apply quiet_budget; simpl; auto.
Qed.

Lemma run_budget (evs : list event) (w w' : World) :
  forallb (fun e => negb (is_scan e)) evs = true ->
  run w evs = Some w' ->
  ssdp_sends (trace w') + budget w' <= ssdp_sends (trace w) + budget w.
Proof.
  revert w. induction evs as [|e evs IH]; intros w Hn R; simpl in Hn, R.
  - inversion R; subst. lia.
  - apply andb_true_iff in Hn. destruct Hn as (He & Hn).
    destruct (step w e) as [w1|] eqn:S; simpl in R; [|discriminate].
    apply negb_true_iff in He.
    pose proof (step_budget _ _ _ He S). pose proof (IH _ Hn R). lia.
Qed.

Lemma scan_budget (a b : bool) (w : World) :
  ssdp_sends (trace (cmdUPnPScan a b w)) + budget (cmdUPnPScan a b w)
  <= ssdp_sends (trace w) + 5.
Proof.
  unfold cmdUPnPScan.
  destruct (upnp_state_eqb (upnp_state w) upnp_ready) eqn:Er.
  - apply upnp_state_eqb_eq in Er.
    destruct (the_client w); unfold budget, respond;
      cbn [emit upnp_state trace ssdp_sends]; rewrite Er; cbn; lia.
  - destruct a; cbn [negb]; [|unfold budget; cbn; lia].
    destruct b; cbn [negb]; [|unfold budget; cbn; lia].
    destruct (UTILS_StrToIP upnp_ssdp_multicast); unfold budget;
      cbn -[Z.add Z.sub Z.max]; unfold counter_max; lia.
Qed.

(** C6 (amended): in every execution that starts with a scan request and
    holds no further scan request, the discovery datagram is handed to the
    transport at most 5 times: the initial send plus at most [counter_max]
    = 4 retransmissions, however many send-completion events occur. *)
Theorem C6_discovery_sends_at_most_five
  (a b : bool) (w0 w' : World) (evs : list event) :
  forallb (fun e => negb (is_scan e)) evs = true ->
  run (cmdUPnPScan a b w0) evs = Some w' ->
  ssdp_sends (trace w') <= ssdp_sends (trace w0) + 5.
Proof.
  intros Hn R. pose proof (run_budget _ _ _ Hn R).
  pose proof (scan_budget a b w0). pose proof (budget_nonneg w'). lia.
Qed.

End Retransmission.

Section ServiceScan.

Context `{Platform}.

Lemma service_step_token (p : string) (st : scan_state) :
  service_step p st = match token_at p with
                      | Some t => token_step st t
                      | None => st
                      end.
Proof.
  unfold service_step, token_at.
  destruct (strncasecmp_eq p "<service>" 9); [reflexivity|].
  destruct (strncasecmp_eq p "</service>" 10); [reflexivity|].
  destruct (strncasecmp_eq p service_id 34); [reflexivity|].
  destruct (strncasecmp_eq p "<controlURL>" 12); simpl.
  - rewrite andb_true_r. reflexivity.
  - rewrite andb_false_r. reflexivity.
Qed.

Lemma service_scan_tokens (p : string) (st : scan_state) :
  service_scan p st = fold_left token_step (tokens p) st.
Proof.
  revert st. induction p as [|a r IH]; intro st; [reflexivity|].
  cbn [service_scan tokens]. rewrite IH, service_step_token.
  destruct (token_at (String a r)); reflexivity.
Qed.

(** Control URLs met while no identifier is pending at the current depth
    are skipped. *)
Lemma skip_ctls (l : list token) (st : scan_state) :
  forallb is_ctl l = true ->
  get_this st <> inservice st ->
  fold_left token_step l st = st.
Proof.
  induction l as [|t l IH]; intros Hl Hd; [reflexivity|].
  simpl in Hl. apply andb_true_iff in Hl. destruct Hl as (Ht & Hl).
  destruct t; try discriminate. simpl.
  destruct (get_this st =? inservice st) eqn:E.
  - apply Z.eqb_eq in E. contradiction.
  - apply IH; assumption.
Qed.

Lemma forallb_app_split {A : Type} (f : A -> bool) (l1 l2 : list A) :
  forallb f (l1 ++ l2)%list = true -> forallb f l1 = true /\ forallb f l2 = true.
Proof. rewrite forallb_app. apply andb_true_iff. Qed.







End ServiceScan.

Section Location.

Lemma str_drop_app (a b : string) : str_drop (String.length a) (a ++ b) = b.
Proof. induction a as [|c a IH]; simpl; auto. Qed.


Lemma str_take_all (a : string) : str_take (String.length a) a = a.
Proof. induction a as [|c a IH]; simpl; congruence. Qed.

Lemma str_drop_add (n m : nat) (s : string) :
  str_drop (n + m) s = str_drop m (str_drop n s).
Proof.
  revert s. induction n as [|n IH]; intro s; simpl; [reflexivity|].
  destruct s as [|c r]; [destruct m; reflexivity|apply IH].
Qed.

Lemma str_length_app (a b : string) :
  String.length (a ++ b) = (String.length a + String.length b)%nat.
Proof. induction a as [|c a IH]; simpl; congruence. Qed.

Lemma str_app_assoc (a b c : string) : (a ++ b) ++ c = a ++ b ++ c.
Proof. induction a as [|x a IH]; simpl; congruence. Qed.

Lemma str_forall_app (P : ascii -> bool) (a b : string) :
  str_forall P (a ++ b) = (str_forall P a && str_forall P b)%bool.
Proof.
  induction a as [|c a IH]; simpl; [reflexivity|].
  rewrite IH, andb_assoc. reflexivity.
Qed.

Lemma str_forall_impl (P Q : ascii -> bool) (s : string) :
  (forall c, P c = true -> Q c = true) ->
  str_forall P s = true -> str_forall Q s = true.
Proof.
  intro I. induction s as [|c r IH]; simpl; [reflexivity|].
  intro E. apply andb_true_iff in E. destruct E as (E1 & E2).
  rewrite (I c E1), (IH E2). reflexivity.
Qed.

Lemma c_str_id (s : string) : str_forall not_nul s = true -> c_str s = s.
Proof.
  induction s as [|c r IH]; simpl; [reflexivity|].
  intro E. apply andb_true_iff in E. destruct E as (E1 & E2).
  unfold not_nul in E1. apply negb_true_iff in E1. rewrite E1, (IH E2). reflexivity.
Qed.


Lemma span_until_all (stop : ascii -> bool) (a : string) :
  str_forall (fun c => negb (is_nul c || stop c)) a = true ->
  span_until stop a = String.length a.
Proof.
  induction a as [|c a IH]; simpl; [reflexivity|].
  intro E. apply andb_true_iff in E. destruct E as (E1 & E2).
  apply negb_true_iff in E1. rewrite E1, (IH E2). reflexivity.
Qed.









End Location.

Section Requests.

Context `{Platform}.

(** Whatever the session holds, the delete request is the expansion of its
    header template alone: the XML it announces is not in the buffer. *)
Lemma remove_request_is_headers_only (c : UPnPClient) (u h xml : string) :
  control_url c = Some u ->
  host c = Some h ->
  os_sprintf upnp_query_remove_xml [ArgD (remote_port c)] = Some xml ->
  build_query upnp_removing_port c = Some (Some (remove_headers u h (strlen xml))).
Proof.
  intros Eu Eh Ex. unfold build_query. rewrite Ex, Eu, Eh. cbn [bind_opt].
  reflexivity.
Qed.

(** In the external-address state the callback never looks past the tag:
    what it stores is the parse of the session's host. *)
Lemma recv_extaddress_parses_host (w : World) (c : UPnPClient) (h pdata : string) :
  upnp_state w = upnp_query_extaddress ->
  the_client w = Some c ->
  host c = Some h ->
  has_external_ip_tag pdata = true ->
  upnp_tcp_recv_cb pdata w =
    Some match UTILS_StrToIP h with
         | Some e => set_client w (Some (set_external_address c e))
         | None => w
         end.
Proof.
  intros Es Ec Eh Et. unfold upnp_tcp_recv_cb. rewrite Es, Ec. cbn [bind_opt].
  rewrite Et, Eh. cbn [bind_opt]. destruct (UTILS_StrToIP h); reflexivity.
Qed.

Lemma discovery_outcome (a : Z) (line : string) :
  UTILS_StrToIP upnp_ssdp_multicast = Some a ->
  line = "LOCATION: http://192.168.1.1:8000/desc.xml" \/
  line = "LOCATION:http://192.168.1.1:8000/desc.xml" ->
  exists w c,
    run initial_world (discovery_scenario line) = Some w /\
    upnp_state w = upnp_ready /\
    the_client w = Some c /\
    control_port c = 8000 /\
    control_url c = Some "/ctl" /\
    (line = "LOCATION:http://192.168.1.1:8000/desc.xml" ->
     host c = Some "192.168.1.1:8000").
Proof.
  intros Hm Hl. unfold discovery_scenario.
  cbn [run step bind_opt].
  rewrite (scan_not_ready initial_world a) by (discriminate || assumption).
  cbn [bind_opt].
  unfold ssdp_recv_cb. cbn [scan_started upnp_state the_client bind_opt].
  destruct Hl as [Hl | Hl]; subst line.
  - set (fl := find_location _ _ _). vm_compute in fl. subst fl. cbv iota.
    set (an := upnp_analyze_location _ _ _). vm_compute in an. subst an.
    cbn [bind_opt]. cbv beta iota zeta delta [upnp_cleanup_conn].
    unfold upnp_query_igd.
    set (bq := build_query _ _). vm_compute in bq. subst bq.
    cbn [host set_data set_con bind_opt].
    destruct (UTILS_StrToIP "/192.168.1.1:8000") as [a0|];
      (eexists; eexists; split;
       [vm_compute; reflexivity | split_all; try reflexivity; discriminate]).
  - set (fl := find_location _ _ _). vm_compute in fl. subst fl. cbv iota.
    set (an := upnp_analyze_location _ _ _). vm_compute in an. subst an.
    cbn [bind_opt]. cbv beta iota zeta delta [upnp_cleanup_conn].
    unfold upnp_query_igd.
    set (bq := build_query _ _). vm_compute in bq. subst bq.
    cbn [host set_data set_con bind_opt].
    destruct (UTILS_StrToIP "192.168.1.1:8000") as [a0|];
      (eexists; eexists; split; [vm_compute; reflexivity | split_all; reflexivity]).
Qed.

(** C5 (amended): after a scan, a discovery reply with the header line
    [LOCATION: http://192.168.1.1:8000/desc.xml], a description body naming
    the target service with control URL [/ctl], and the close of the
    description connection, the session has state Ready, controlPort 8000
    and controlUrl [/ctl]; when the LOCATION value follows the colon with
    no blank, host is the authority with its port, [192.168.1.1:8000]. *)
Theorem C5_discovery_end_to_end (a : Z) :
  UTILS_StrToIP upnp_ssdp_multicast = Some a ->
  (exists w c,
     run initial_world
       (discovery_scenario "LOCATION: http://192.168.1.1:8000/desc.xml") = Some w /\
     upnp_state w = upnp_ready /\
     the_client w = Some c /\
     control_port c = 8000 /\
     control_url c = Some "/ctl") /\
  (exists w c,
     run initial_world
       (discovery_scenario "LOCATION:http://192.168.1.1:8000/desc.xml") = Some w /\
     upnp_state w = upnp_ready /\
     the_client w = Some c /\
     host c = Some "192.168.1.1:8000" /\
     control_port c = 8000 /\
     control_url c = Some "/ctl").
Proof.
  intro Hm. split.
  - destruct (discovery_outcome a _ Hm (or_introl eq_refl))
      as (w & c & R & Es & Ec & Ep & Eu & _).
    exists w, c. auto.
  - destruct (discovery_outcome a _ Hm (or_intror eq_refl))
      as (w & c & R & Es & Ec & Ep & Eu & Eh).
    exists w, c. split_all; auto.
Qed.

End Requests.

(** * Further properties: discovery replies and locations *)

Section DiscoveryReply.

Context `{Platform}.

Lemma str_take_drop (n : nat) (s : string) : str_take n s ++ str_drop n s = s.
Proof.
  revert s. induction n as [|n IH]; intro s; [reflexivity|].
  destruct s as [|c r]; simpl; [reflexivity|]. rewrite IH. reflexivity.
Qed.

Lemma str_app_nil_r (s : string) : s ++ "" = s.
Proof. induction s as [|c r IH]; simpl; congruence. Qed.

Lemma is_nul_false_of_not_nul (c : ascii) : not_nul c = true -> is_nul c = false.
Proof. unfold not_nul. apply negb_true_iff. Qed.

(** [strncmp] against a literal compares the first bytes of the buffer. *)
Lemma strncmp_eq_take (b a : string) :
  str_forall not_nul b = true ->
  strncmp_eq a b (String.length b) = true <-> str_take (String.length b) a = b.
Proof.
  revert a. induction b as [|x b IH]; intros a Hb.
  - simpl. destruct a; split; reflexivity.
  - simpl in Hb. apply andb_true_iff in Hb. destruct Hb as (Hx & Hb).
    apply is_nul_false_of_not_nul in Hx.
    cbn [String.length strncmp_eq str_take head_char tail_str].
    destruct a as [|y a]; cbn [head_char tail_str].
    + destruct (Ascii.eqb_spec NUL x) as [E | N].
      * subst x. discriminate Hx.
      * split; discriminate.
    + destruct (Ascii.eqb_spec y x) as [E | N].
      * subst y. rewrite Hx. rewrite (IH a Hb). split; congruence.
      * split; [discriminate|]. intro E. inversion E. contradiction.
Qed.

Lemma char_at_head (s : string) (i : nat) : char_at s i = head_char (str_drop i s).
Proof. reflexivity. Qed.

(** The test of the discovery loop at [i] holds exactly when the eleven
    bytes at [i] are CR, LF and the header name. *)
Lemma location_test_iff (s : string) (i : nat) :
  (Ascii.eqb (char_at s i) CR && Ascii.eqb (char_at s (i + 1)) LF
   && strncmp_eq (str_drop (i + 2) s) "LOCATION:" 9)%bool = true <->
  str_take 11 (str_drop i s) = location_marker.
Proof.
  rewrite !char_at_head, !str_drop_add.
  set (t := str_drop i s). clearbody t.
  unfold location_marker.
  destruct t as [|c0 t]; cbn [head_char str_drop].
  { split; discriminate. }
  change (str_take 11 (String c0 t)) with (String c0 (str_take 10 t)).
  destruct (Ascii.eqb_spec c0 CR) as [E0 | N0]; cbn [andb].
  2:{ split; [discriminate|]. intro E. inversion E. contradiction. }
  subst c0.
  destruct t as [|c1 t]; cbn [head_char str_drop].
  { split; discriminate. }
  change (str_take 10 (String c1 t)) with (String c1 (str_take 9 t)).
  destruct (Ascii.eqb_spec c1 LF) as [E1 | N1]; cbn [andb].
  2:{ split; [discriminate|]. intro E. inversion E. contradiction. }
  subst c1.
  pose proof (strncmp_eq_take "LOCATION:" t eq_refl) as K.
  change (String.length "LOCATION:") with 9%nat in K.
  split; intro E.
  - apply K in E. rewrite E. reflexivity.
  - apply K. inversion E as [E']. reflexivity.
Qed.

(** What the search loop returns. *)
Lemma find_location_spec (s : string) (start n : nat) :
  match find_location s start n with
  | Some i =>
      (start <= i < start + n)%nat /\
      str_take 11 (str_drop i s) = location_marker /\
      forall j, (start <= j < i)%nat -> str_take 11 (str_drop j s) <> location_marker
  | None =>
      forall j, (start <= j < start + n)%nat ->
                str_take 11 (str_drop j s) <> location_marker
  end.
Proof.
  revert start. induction n as [|n IH]; intro start.
  - simpl. intros j Hj. lia.
  - cbn [find_location].
    destruct (Ascii.eqb (char_at s start) CR && Ascii.eqb (char_at s (start + 1)) LF
              && strncmp_eq (str_drop (start + 2) s) "LOCATION:" 9)%bool eqn:T.
    + apply location_test_iff in T. split; [lia|]. split; [exact T|].
      intros j Hj. lia.
    + assert (N : str_take 11 (str_drop start s) <> location_marker).
      { intro E. apply location_test_iff in E. congruence. }
      specialize (IH (S start)).
      destruct (find_location s (S start) n) as [i|].
      * destruct IH as (Hi & Hm & Hf). split; [lia|]. split; [exact Hm|].
        intros j Hj. destruct (Nat.eq_dec j start) as [-> | Hne]; [exact N|].
        apply Hf. lia.
      * intros j Hj. destruct (Nat.eq_dec j start) as [-> | Hne]; [exact N|].
        apply IH. lia.
Qed.

(** X1: the search of the discovery callback returns the first position
    in its window at which the eleven bytes CR LF LOCATION: start, and
    nothing when no position of the window has them. *)
Theorem X1_find_location_first_match (s : string) (start n : nat) :
  (forall i, find_location s start n = Some i ->
     (start <= i < start + n)%nat /\
     str_take 11 (str_drop i s) = location_marker /\
     forall j, (start <= j < i)%nat -> str_take 11 (str_drop j s) <> location_marker) /\
  (find_location s start n = None ->
     forall j, (start <= j < start + n)%nat ->
               str_take 11 (str_drop j s) <> location_marker).
Proof.
  pose proof (find_location_spec s start n) as K. split.
  - intros i E. rewrite E in K. exact K.
  - intro E. rewrite E in K. exact K.
Qed.

Lemma find_location_none (s : string) (n : nat) :
  (forall j, (j < n)%nat -> str_take 11 (str_drop j s) <> location_marker) ->
  find_location s 0 n = None.
Proof.
  intro Hn. pose proof (find_location_spec s 0 n) as K.
  destruct (find_location s 0 n) as [i|]; [|reflexivity].
  destruct K as (Hi & Hm & _). exfalso. apply (Hn i); [lia|exact Hm].
Qed.

(** X2: while discovering, a datagram in which CR LF LOCATION: starts at
    no position before its last 20 bytes is ignored: the world is left as
    it was.  This covers every datagram of at most 20 bytes, and every
    datagram whose only LOCATION header lies in its last 20 bytes. *)
Theorem X2_datagram_without_location_is_ignored
  (w : World) (c : UPnPClient) (pusrdata : string) :
  the_client w = Some c ->
  (forall j, (j + 20 < String.length pusrdata)%nat ->
             str_take 11 (str_drop j pusrdata) <> location_marker) ->
  ssdp_recv_cb pusrdata w = Some w.
Proof.
  intros Ec Hn. unfold ssdp_recv_cb.
  destruct (upnp_state w); try reflexivity.
  rewrite Ec. cbn [bind_opt].
  rewrite find_location_none; [reflexivity|].
  intros j Hj. apply Hn. lia.
Qed.

Lemma span_until_no_nul (stop : ascii -> bool) (s : string) :
  str_forall not_nul (str_take (span_until stop s) s) = true.
Proof.
  induction s as [|c r IH]; [reflexivity|]. cbn [span_until].
  destruct (is_nul c) eqn:En; [reflexivity|].
  destruct (stop c); [reflexivity|]. cbn [orb str_take str_forall].
  unfold not_nul at 1. rewrite En, IH. reflexivity.
Qed.

Lemma span_until_le (stop : ascii -> bool) (s : string) :
  (span_until stop s <= String.length s)%nat.
Proof.
  induction s as [|c r IH]; simpl; [lia|].
  destruct (is_nul c || stop c)%bool; simpl; lia.
Qed.

Lemma str_take_length (n : nat) (s : string) :
  (n <= String.length s)%nat -> String.length (str_take n s) = n.
Proof.
  revert s. induction n as [|n IH]; intros s Hn; [reflexivity|].
  destruct s as [|c r]; simpl in *; [lia|]. rewrite IH; lia.
Qed.

Lemma sprintf_general_query (p l : string) :
  os_sprintf upnp_general_query [ArgS p; ArgS l] = Some (get_request p l).
Proof. reflexivity. Qed.

(** The analyzer stores the C string at the start of the text it is given
    and keeps every field it does not compute. *)
Lemma analyze_location_fields (c c' : UPnPClient) (loc : string) (len : nat) :
  upnp_analyze_location c loc len = Some c' ->
  location c' = Some (c_str (str_take len loc)) /\
  (exists h p, host c' = Some h /\ path c' = Some p) /\
  remote_ip c' = remote_ip c /\ control_url c' = control_url c /\
  external_address c' = external_address c.
Proof.
  unfold upnp_analyze_location. destruct (Nat.ltb len 7); [discriminate|].
  intro E. inversion E; subst; clear E. cbn.
  split; [reflexivity|]. split; [|auto]. eexists. eexists. split; reflexivity.
Qed.

(** X3: while discovering, a datagram whose first LOCATION header (as the
    search finds it) has a value of at least 7 bytes moves the session on:
    the value, up to the next CR, becomes the location; the discovery
    connection is deleted; the state is DeviceFound; and the description
    request, whose Host header is the whole location, waits in the
    session's buffer while a connect or a name lookup is started. *)
Theorem X3_location_reply_starts_description_fetch
  (w : World) (c : UPnPClient) (pusrdata : string) (i : nat) :
  upnp_state w = upnp_multicasted ->
  the_client w = Some c ->
  find_location pusrdata 0 (Z.to_nat (Z.of_nat (String.length pusrdata) - 20)) = Some i ->
  (7 <= String.length (location_value pusrdata i))%nat ->
  exists w' c' p,
    ssdp_recv_cb pusrdata w = Some w' /\
    upnp_state w' = upnp_found_igd /\
    the_client w' = Some c' /\
    location c' = Some (location_value pusrdata i) /\
    path c' = Some p /\
    data c' = Some (get_request p (location_value pusrdata i)) /\
    exists e, trace w' = e :: Espconn_delete :: trace w /\ opens_connection e = true.
Proof.
  intros Es Ec Ef Hl. unfold ssdp_recv_cb. rewrite Es, Ec. cbn [bind_opt]. rewrite Ef.
  set (rest := str_drop (i + 11) pusrdata).
  replace (i + 11 + span_until is_cr rest - (i + 11))%nat
    with (span_until is_cr rest) by lia.
  assert (Hv : c_str (str_take (span_until is_cr rest) rest) = location_value pusrdata i).
  { unfold location_value. fold rest. apply c_str_id, span_until_no_nul. }
  assert (Hlen : Nat.ltb (span_until is_cr rest) 7 = false).
  { apply Nat.ltb_ge. unfold location_value in Hl. fold rest in Hl.
    rewrite str_take_length in Hl by apply span_until_le. exact Hl. }
  destruct (upnp_analyze_location c rest (span_until is_cr rest)) as [c1|] eqn:Ea.
  2:{ unfold upnp_analyze_location in Ea. rewrite Hlen in Ea. discriminate. }
  destruct (analyze_location_fields _ _ _ _ Ea) as (El & (h & p & Eh & Ep) & _).
  rewrite Hv in El.
  cbn [bind_opt upnp_cleanup_conn]. unfold upnp_query_igd.
  cbn [upnp_state set_state build_query].
  assert (Ep' : path (set_con (set_con c1 None)
                        (Some (mk_espconn ESPCONN_TCP (control_port (set_con c1 None)) 0)))
                = Some p) by exact Ep.
  assert (El' : location (set_con (set_con c1 None)
                        (Some (mk_espconn ESPCONN_TCP (control_port (set_con c1 None)) 0)))
                = Some (location_value pusrdata i)) by exact El.
  rewrite Ep', El'. cbn [bind_opt]. rewrite sprintf_general_query. cbn [bind_opt].
  cbn [host set_data set_con]. rewrite Eh. cbn [bind_opt].
  destruct (UTILS_StrToIP h) as [a|].
  - eexists. eexists. exists p. split; [reflexivity|]. cbn.
    split; [reflexivity|]. split; [reflexivity|]. split; [exact El|].
    split; [exact Ep|]. split; [reflexivity|]. eexists. split; reflexivity.
  - eexists. eexists. exists p. split; [reflexivity|]. cbn.
    split; [reflexivity|]. split; [reflexivity|]. split; [exact El|].
    split; [exact Ep|]. split; [reflexivity|]. eexists. split; reflexivity.
Qed.

End DiscoveryReply.

Section LocationSplit.

Lemma is_slash_eq (c : ascii) : is_slash c = true -> c = "/"%char.
Proof. unfold is_slash. intro E. apply Ascii.eqb_eq in E. exact E. Qed.

(** What the analyzer stores for a text of at least 7 bytes. *)
Lemma analyze_location_split
  (c : UPnPClient) (loc : string) (len : nat) :
  (7 <= len)%nat ->
  exists c' l h p,
    upnp_analyze_location c loc len = Some c' /\
    location c' = Some l /\ l = c_str (str_take len loc) /\
    host c' = Some h /\ path c' = Some p /\
    h ++ p = str_drop 7 l /\
    (p = EmptyString \/ exists r, p = String "/" r) /\
    remote_ip c' = remote_ip c /\ control_url c' = control_url c /\
    external_address c' = external_address c /\ con c' = con c /\ data c' = data c.
Proof.
  intro Hlen. unfold upnp_analyze_location.
  assert (E7 : Nat.ltb len 7 = false) by (apply Nat.ltb_ge; exact Hlen).
  rewrite E7. set (l := c_str (str_take len loc)).
  set (i1 := (7 + span_until is_colon (str_drop 7 l))%nat).
  set (i2 := (i1 + span_until is_slash (str_drop i1 l))%nat).
  assert (H2 : (7 <= i2)%nat) by (unfold i2, i1; lia).
  destruct (is_slash (char_at l i2)) eqn:Esl.
  - assert (Hq : Nat.eqb i2 0 = false) by (apply Nat.eqb_neq; lia).
    rewrite Hq.
    eexists. exists l. eexists. eexists. split; [reflexivity|].
    cbn [location host path remote_ip control_url external_address con data
         set_location].
    split; [reflexivity|]. split; [reflexivity|]. split; [reflexivity|].
    split; [reflexivity|]. split.
    { replace (str_drop i2 l) with (str_drop (i2 - 7) (str_drop 7 l)).
      - apply str_take_drop.
      - rewrite <- str_drop_add. f_equal. lia. }
    split; [|auto 10].
    right. unfold char_at in Esl. destruct (str_drop i2 l) as [|x r].
    + discriminate Esl.
    + apply is_slash_eq in Esl. subst x. exists r. reflexivity.
  - change (Nat.eqb 0 0) with true. cbv iota.
    eexists. exists l. eexists. eexists. split; [reflexivity|].
    cbn [location host path remote_ip control_url external_address con data
         set_location].
    split; [reflexivity|]. split; [reflexivity|]. split; [reflexivity|].
    split; [reflexivity|]. split; [apply str_app_nil_r|]. split; [left; reflexivity|].
    auto 10.
Qed.

(** X4: for every text of at least 7 bytes the analyzer returns, and what
    it stores always recomposes: host followed by the path is the location
    without its first 7 bytes; the path is empty or starts with a slash;
    the remaining session fields are kept. *)
Theorem X4_host_and_path_split_the_location
  (c : UPnPClient) (loc : string) (len : nat) :
  (7 <= len)%nat ->
  exists c' l h p,
    upnp_analyze_location c loc len = Some c' /\
    location c' = Some l /\ l = c_str (str_take len loc) /\
    host c' = Some h /\ path c' = Some p /\
    h ++ p = str_drop 7 l /\
    (p = EmptyString \/ exists r, p = String "/" r) /\
    remote_ip c' = remote_ip c /\ control_url c' = control_url c /\
    external_address c' = external_address c /\ con c' = con c /\ data c' = data c.
Proof.
  intro Hlen.
  destruct (analyze_location_split c loc len Hlen) as (c' & l & h & p & K).
  exists c', l, h, p. exact K.
Qed.

(** X5: a location with no colon after its first 7 bytes gets port 80, an
    empty path, and its whole remainder, slashes included, as host. *)
Theorem X5_location_without_colon_keeps_no_path
  (c : UPnPClient) (scheme r : string) :
  String.length scheme = 7%nat ->
  str_forall not_nul scheme = true ->
  str_forall portless_char r = true ->
  exists c',
    upnp_analyze_location c (scheme ++ r) (String.length (scheme ++ r)) = Some c' /\
    control_port c' = 80 /\
    path c' = Some EmptyString /\
    host c' = Some r.
Proof.
  intros Hs Hn Hr.
  assert (Hrn : str_forall not_nul r = true).
  { revert Hr. apply str_forall_impl. intros x Ex. unfold portless_char in Ex.
    unfold not_nul. apply negb_true_iff in Ex. apply orb_false_iff in Ex.
    destruct Ex as (Ex & _). rewrite Ex. reflexivity. }
  unfold upnp_analyze_location.
  rewrite str_take_all, c_str_id by (rewrite str_forall_app, Hn, Hrn; reflexivity).
  assert (E7 : Nat.ltb (String.length (scheme ++ r)) 7 = false).
  { apply Nat.ltb_ge. rewrite str_length_app. lia. }
  rewrite E7.
  assert (D7 : str_drop 7 (scheme ++ r) = r).
  { rewrite <- Hs. apply str_drop_app. }
  rewrite D7, (span_until_all is_colon r Hr).
  assert (De : str_drop (7 + String.length r) (scheme ++ r) = EmptyString).
  { rewrite str_drop_add, D7. rewrite <- (str_app_nil_r r) at 2. apply str_drop_app. }
  unfold char_at. rewrite De. cbn [is_colon Ascii.eqb NUL Bool.eqb andb Nat.eqb].
  change (span_until is_slash "") with 0%nat. rewrite Nat.add_0_r, De.
  change (is_slash NUL) with false. cbv iota. change (Nat.eqb 0 0) with true.
  cbv iota.
  eexists. split; [reflexivity|].
  cbn [control_port path host set_location]. auto.
Qed.

End LocationSplit.

(** * Further properties: sending *)

Section Sending.

Context `{Platform}.

Lemma str_drop_length (n : nat) (s : string) :
  String.length (str_drop n s) = (String.length s - n)%nat.
Proof.
  revert s. induction n as [|n IH]; intro s; simpl; [lia|].
  destruct s as [|c r]; simpl; [reflexivity|apply IH].
Qed.

Lemma str_take_drop_all (n : nat) (s : string) :
  str_take (String.length s - n) (str_drop n s) = str_drop n s.
Proof. rewrite <- str_drop_length. apply str_take_all. Qed.

Lemma sent_bytes_app (t1 t2 : list effect) :
  sent_bytes (t1 ++ t2)%list = sent_bytes t2 ++ sent_bytes t1.
Proof.
  induction t1 as [|e t1 IH]; simpl; [symmetry; apply str_app_nil_r|].
  destruct e; try exact IH. rewrite IH. apply str_app_assoc.
Qed.

Lemma sent_bytes_chunks (q : string) : sent_bytes (chunks q) = q.
Proof.
  unfold chunks. destruct (strlen q <=? 1400); cbn [sent_bytes append]; [reflexivity|].
  apply str_take_drop.
Qed.

Lemma str_take_take (a b : nat) (s : string) :
  (a <= b)%nat -> str_take a (str_take b s) = str_take a s.
Proof.
  revert b s. induction a as [|a IH]; intros b s Hab; [reflexivity|].
  destruct b as [|b]; [lia|].
  destruct s as [|c r]; simpl; [reflexivity|]. rewrite IH by lia. reflexivity.
Qed.

Lemma str_drop_take (a b : nat) (s : string) :
  str_drop a (str_take (a + b) s) = str_take b (str_drop a s).
Proof.
  revert s. induction a as [|a IH]; intro s; [reflexivity|].
  destruct s as [|c r]; simpl; [destruct b; reflexivity|apply IH].
Qed.

Lemma uint16_strlen_range (q : string) :
  0 <= uint16 (strlen q) < 65536 /\ uint16 (strlen q) <= strlen q.
Proof.
  unfold uint16, strlen.
  pose proof (Z.mod_pos_bound (Z.of_nat (String.length q)) 65536 ltac:(lia)).
  pose proof (Z.mod_le (Z.of_nat (String.length q)) 65536 ltac:(lia) ltac:(lia)).
  lia.
Qed.

Lemma strlen_sent_prefix (q : string) :
  strlen (sent_prefix q) = uint16 (strlen q).
Proof.
  pose proof (uint16_strlen_range q) as (R & L).
  unfold sent_prefix. unfold strlen at 1.
  rewrite str_take_length; unfold strlen in *; lia.
Qed.

Lemma sent_prefix_short (q : string) : strlen q < 65536 -> sent_prefix q = q.
Proof.
  intro Hq. unfold sent_prefix, uint16.
  rewrite Z.mod_small by (unfold strlen in *; lia).
  unfold strlen. rewrite Nat2Z.id. apply str_take_all.
Qed.

(** X6: once connected, a session whose buffer holds the request [q], its
    16-bit length field holding strlen q mod 65536 as the request builder
    leaves it, hands the first strlen q mod 65536 bytes of [q] to the
    transport in at most two calls - all of them when they are at most
    1400, otherwise the first 1400 and then the whole remainder in one
    call - and the send completions that follow free the buffer.  The
    bytes sent are exactly that prefix: all of [q] when [q] is shorter
    than 65536 bytes, and not all of it otherwise.  The state does not
    change. *)
Theorem X6_request_is_sent_in_at_most_two_calls
  (w : World) (c : UPnPClient) (q : string) :
  the_client w = Some c ->
  data c = Some q ->
  data_len c = uint16 (strlen q) ->
  exists w' c',
    run w [TcpConnect; TcpSent; TcpSent] = Some w' /\
    trace w' = (chunks (sent_prefix q) ++ trace w)%list /\
    sent_bytes (trace w') = sent_bytes (trace w) ++ sent_prefix q /\
    strlen (sent_prefix q) = strlen q mod 65536 /\
    (strlen q < 65536 -> sent_prefix q = q) /\
    (65536 <= strlen q -> sent_prefix q <> q) /\
    the_client w' = Some c' /\ data c' = None /\
    upnp_state w' = upnp_state w.
Proof.
  intros Ec Ed El.
  pose proof (uint16_strlen_range q) as (Hr & Hq).
  pose proof (strlen_sent_prefix q) as Hp.
  set (n := uint16 (strlen q)) in *.
  assert (K : exists w' c',
             run w [TcpConnect; TcpSent; TcpSent] = Some w' /\
             trace w' = (chunks (sent_prefix q) ++ trace w)%list /\
             the_client w' = Some c' /\ data c' = None /\
             upnp_state w' = upnp_state w).
  { cbn [run step]. unfold upnp_tcp_connect_cb. rewrite Ec. cbn [bind_opt].
    unfold payload. rewrite Ed, El. unfold chunks. rewrite Hp.
    destruct (n <=? 1400) eqn:Hle.
    - fold (sent_prefix q). unfold upnp_tcp_sent_cb.
      do 3 (cbn [the_client emit set_client bind_opt data_sent data_len set_data_sent
                 set_data negb];
            rewrite ?El, ?Z.eqb_refl).
      eexists. eexists. split; [reflexivity|]. split; [reflexivity|].
      split; [reflexivity|]. split; reflexivity.
    - apply Z.leb_gt in Hle.
      assert (Hne : (1400 =? n) = false) by (apply Z.eqb_neq; lia).
      assert (Hfirst : str_take (Z.to_nat 1400) q = str_take 1400 (sent_prefix q)).
      { change (Z.to_nat 1400) with 1400%nat. unfold sent_prefix. fold n.
        symmetry. apply str_take_take. lia. }
      assert (Hrest : str_take (Z.to_nat (n - 1400)) (str_drop (Z.to_nat 1400) q)
                      = str_drop 1400 (sent_prefix q)).
      { change (Z.to_nat 1400) with 1400%nat. unfold sent_prefix. fold n.
        replace (Z.to_nat n) with (1400 + Z.to_nat (n - 1400))%nat by lia.
        symmetry. apply str_drop_take. }
      rewrite Hfirst.
      unfold upnp_tcp_sent_cb, payload.
      do 3 (cbn [the_client emit set_client bind_opt data_sent data_len set_data_sent
                 set_data data negb];
            rewrite ?El, ?Ed, ?Z.eqb_refl, ?Hne, ?Hrest).
      eexists. eexists. split; [reflexivity|]. split; [reflexivity|].
      split; [reflexivity|]. split; reflexivity. }
  destruct K as (w' & c' & R & Et & Ec' & Ed' & Es).
  exists w', c'. split; [exact R|]. split; [exact Et|].
  split; [rewrite Et, sent_bytes_app, sent_bytes_chunks; reflexivity|].
  split; [exact Hp|].
  split; [apply sent_prefix_short|].
  split; [|auto].
  intros Hbig E. rewrite E in Hp. subst n. unfold uint16 in *. lia.
Qed.

(** Send completions while discovering: each resends until the counter
    reaches [counter_max]. *)
Lemma resend_run (n : nat) (w : World) :
  upnp_state w = upnp_multicasted ->
  0 <= counter w <= counter_max ->
  exists w',
    run w (List.repeat SsdpSent n) = Some w' /\
    upnp_state w' = upnp_multicasted /\
    counter w' = Z.min (counter w + Z.of_nat n) counter_max /\
    ssdp_sends (trace w') =
      ssdp_sends (trace w) + (Z.min (counter w + Z.of_nat n) counter_max - counter w).
Proof.
  revert w. induction n as [|n IH]; intros w Es Hc.
  - exists w. cbn [List.repeat run]. split; [reflexivity|]. split; [exact Es|].
    split; lia.
  - cbn [List.repeat run step bind_opt]. unfold ssdp_sent_cb. rewrite Es.
    cbn [upnp_state_eqb andb].
    destruct (counter w <? counter_max) eqn:Hlt.
    + apply Z.ltb_lt in Hlt.
      destruct (IH (emit (Espconn_sent ssdp_message) (set_counter w (counter w + 1))))
        as (w' & R & Es' & Ec' & Et'); [exact Es | cbn; lia |].
      exists w'. split; [exact R|]. split; [exact Es'|].
      cbn [counter emit set_counter trace ssdp_sends] in Ec', Et'. split; lia.
    + apply Z.ltb_ge in Hlt.
      destruct (IH w Es Hc) as (w' & R & Es' & Ec' & Et').
      exists w'. split; [exact R|]. split; [exact Es'|]. split; lia.
Qed.

(** X7: a scan request that goes ahead, followed by [n] send completions
    and nothing else, hands the discovery datagram to the transport exactly
    1 + min(n, 4) times. *)
Theorem X7_exact_number_of_discovery_datagrams
  (w : World) (a : Z) (n : nat) :
  upnp_state w <> upnp_ready ->
  UTILS_StrToIP upnp_ssdp_multicast = Some a ->
  exists w',
    run (cmdUPnPScan true true w) (List.repeat SsdpSent n) = Some w' /\
    ssdp_sends (trace w') = ssdp_sends (trace w) + 1 + Z.min (Z.of_nat n) 4 /\
    counter w' = Z.min (Z.of_nat n) 4.
Proof.
  intros Ns Hm. rewrite (scan_not_ready w a Ns Hm).
  destruct (resend_run n (scan_started w a)) as (w' & R & _ & Ec & Et).
  - reflexivity.
  - cbn. unfold counter_max. lia.
  - exists w'. split; [exact R|].
    cbn [scan_started counter trace ssdp_sends] in Ec, Et.
    unfold counter_max in *. split; lia.
Qed.

Lemma step_counter_range (w w' : World) (e : event) :
  0 <= counter w <= counter_max ->
  step w e = Some w' ->
  0 <= counter w' <= counter_max.
Proof.
  intros Hc S. destruct e; simpl in S.
  - (* cmdUPnPBegin *) inversion S; subst. exact Hc.
  - (* cmdUPnPScan *)
    inversion S; subst. clear S. unfold cmdUPnPScan.
    destruct (upnp_state_eqb (upnp_state w) upnp_ready).
    + destruct (the_client w); exact Hc.
    + destruct alloc_con; cbn [negb]; [|exact Hc].
      destruct alloc_udp; cbn [negb]; [|cbn; unfold counter_max; lia].
      destruct (UTILS_StrToIP upnp_ssdp_multicast); cbn; unfold counter_max; lia.
  - (* cmdUPnPAddPort *)
    unfold cmdUPnPAddPort in S.
    destruct (negb _); [inversion S; subst; exact Hc|].
    destruct (cmdPopArg _ 4) as [[v1 r1]|]; [|inversion S; subst; exact Hc].
    destruct (cmdPopArg r1 2) as [[v2 r2]|]; [|inversion S; subst; exact Hc].
    destruct (cmdPopArg r2 2) as [[v3 r3]|]; [|inversion S; subst; exact Hc].
    destruct (gateway_ready w) as [c|]; [|inversion S; subst; exact Hc].
    destruct (upnp_query_igd _ _) as [w1|] eqn:Q; simpl in S; [|discriminate].
    inversion S; subst. destruct (query_igd_quiet _ _ _ Q) as (_ & Ec & _).
    cbn [counter respond emit]. rewrite Ec. exact Hc.
  - (* cmdUPnPRemovePort *)
    unfold cmdUPnPRemovePort in S.
    destruct (negb _); [inversion S; subst; exact Hc|].
    destruct (cmdPopArg _ 2) as [[v1 r1]|]; [|inversion S; subst; exact Hc].
    destruct (gateway_ready w) as [c|]; [|inversion S; subst; exact Hc].
    destruct (upnp_query_igd _ _) as [w1|] eqn:Q; simpl in S; [|discriminate].
    inversion S; subst. destruct (query_igd_quiet _ _ _ Q) as (_ & Ec & _).
    cbn [counter respond emit]. rewrite Ec. exact Hc.
  - (* cmdUPnPQueryExternalAddress *)
    unfold cmdUPnPQueryExternalAddress in S.
    destruct (the_client w) as [c|]; [|inversion S; subst; exact Hc].
    destruct (remote_ip c =? 0); [inversion S; subst; exact Hc|].
    destruct (upnp_state w); try (inversion S; subst; exact Hc).
    + destruct (upnp_query_igd _ _) as [w1|] eqn:Q; simpl in S; [|discriminate].
      inversion S; subst. destruct (query_igd_quiet _ _ _ Q) as (_ & Ec & _).
      cbn [counter respond emit]. rewrite Ec. exact Hc.
    + inversion S; subst. destruct (negb _); exact Hc.
  - (* ssdp_recv_cb *)
    unfold ssdp_recv_cb in S.
    destruct (upnp_state w); try (inversion S; subst; exact Hc).
    destruct (the_client w) as [c|]; simpl in S; [|discriminate].
    destruct (find_location _ _ _) as [i|]; [|inversion S; subst; exact Hc].
    destruct (upnp_analyze_location _ _ _) as [c1|]; simpl in S; [|discriminate].
    destruct (query_igd_quiet _ _ _ S) as (_ & Ec & _). rewrite Ec. exact Hc.
  - (* ssdp_sent_cb *)
    inversion S; subst. clear S. unfold ssdp_sent_cb.
    destruct (upnp_state_eqb _ _); cbn [andb]; [|exact Hc].
    destruct (counter w <? counter_max) eqn:Hlt; [|exact Hc].
    apply Z.ltb_lt in Hlt. cbn [counter emit set_counter]. lia.
  - (* upnp_tcp_connect_cb *)
    unfold upnp_tcp_connect_cb in S.
    destruct (the_client w) as [c|]; simpl in S; [|discriminate].
    inversion S; subst. exact Hc.
  - (* upnp_tcp_sent_cb *)
    unfold upnp_tcp_sent_cb in S.
    destruct (the_client w) as [c|]; simpl in S; [|discriminate].
    destruct (negb _); inversion S; subst; exact Hc.
  - (* upnp_tcp_recv_cb *)
    unfold upnp_tcp_recv_cb in S.
    destruct (upnp_state w); try (inversion S; subst; exact Hc).
    + destruct (the_client w) as [c|]; simpl in S; [|discriminate].
      destruct (found_url _); inversion S; subst; exact Hc.
    + destruct (the_client w) as [c|]; simpl in S; [|discriminate].
      destruct (has_external_ip_tag pdata); [|inversion S; subst; exact Hc].
      destruct (host c) as [h|]; simpl in S; [|discriminate].
      destruct (UTILS_StrToIP h); inversion S; subst; exact Hc.
  - (* upnp_tcp_discon_cb *)
    unfold upnp_tcp_discon_cb in S.
    destruct (the_client w) as [c|]; simpl in S; [|discriminate].
    destruct (upnp_state w); inversion S; subst; exact Hc.
  - (* upnp_tcp_recon_cb *) inversion S; subst. exact Hc.
  - (* upnp_dns_found *)
    inversion S; subst. clear S. unfold upnp_dns_found.
    destruct ipaddr as [a|]; [|exact Hc].
    destruct (the_client w) as [c|]; [|exact Hc].
    destruct (_ && _)%bool; exact Hc.
Qed.

(** X8: in every world reachable from power-up the retransmission counter
    lies between 0 and [counter_max] = 4. *)
Theorem X8_retransmission_counter_is_bounded (w : World) :
  reachable w -> 0 <= counter w <= 4.
Proof.
  intros (evs & R).
  assert (K : forall evs w0 w1, 0 <= counter w0 <= counter_max ->
                                run w0 evs = Some w1 -> 0 <= counter w1 <= counter_max).
  { clear. intro evs. induction evs as [|e evs IH]; intros w0 w1 Hc R; simpl in R.
    - inversion R; subst. exact Hc.
    - destruct (step w0 e) as [w2|] eqn:S; simpl in R; [|discriminate].
      eapply IH; [|exact R]. eapply step_counter_range; eauto. }
  apply (K evs initial_world w); [cbn; unfold counter_max; lia | exact R].
Qed.

End Sending.

(** * Further properties: replies and operations *)

Section Replies.

Context `{Platform}.

(** X9: in every reachable world, a session whose host the address parser
    rejects (a name, or an authority with a leading byte that is no digit)
    has no gateway address, however the name resolves: AddPort, RemovePort
    and QueryExternalAddress are all answered -1 and change nothing else. *)
Theorem X9_unparsed_host_blocks_operations
  (w : World) (c : UPnPClient) (h : string) (cmd_add cmd_remove : CmdPacket) :
  reachable w ->
  the_client w = Some c ->
  host c = Some h ->
  UTILS_StrToIP h = None ->
  add_args_readable cmd_add ->
  remove_args_readable cmd_remove ->
  remote_ip c = 0 /\
  cmdUPnPAddPort cmd_add w = Some (respond (-1) w) /\
  cmdUPnPRemovePort cmd_remove w = Some (respond (-1) w) /\
  cmdUPnPQueryExternalAddress w = Some (respond (-1) w).
Proof.
  intros R Ec Eh Ep (Ca & v1 & r1 & v2 & r2 & v3 & r3 & E1 & E2 & E3) (Cr & v & r & E).
  destruct (reachable_inv w R) as (I2 & _ & _).
  assert (Ez : remote_ip c = 0).
  { destruct (Z.eq_dec (remote_ip c) 0) as [Ez | Nz]; [exact Ez|].
    destruct (I2 c Ec Nz) as (h' & Eh' & Ep'). congruence. }
  assert (G : gateway_ready w = None).
  { unfold gateway_ready. rewrite Ec, Ez. reflexivity. }
  split; [exact Ez|]. split; [|split].
  - unfold cmdUPnPAddPort. rewrite Ca, E1, E2, E3. cbn [Z.eqb negb]. rewrite G.
    reflexivity.
  - unfold cmdUPnPRemovePort. rewrite Cr, E. cbn [Z.eqb negb]. rewrite G. reflexivity.
  - unfold cmdUPnPQueryExternalAddress. rewrite Ec, Ez. reflexivity.
Qed.

(** The scan keeps "no identifier pending" while it meets neither the
    identifier nor a closing tag. *)
Lemma quiet_fold (l : list token) (st : scan_state) :
  forallb quiet_token l = true ->
  0 <= inservice st -> get_this st = -1 ->
  let st' := fold_left token_step l st in
  0 <= inservice st' /\ get_this st' = -1 /\ found_url st' = found_url st.
Proof.
  revert st. induction l as [|t l IH]; intros st Hl Hi Hg; [cbn; auto|].
  cbn [forallb] in Hl. apply andb_true_iff in Hl. destruct Hl as (Ht & Hl).
  cbn [fold_left]. destruct t; try discriminate Ht.
  - destruct (IH (token_step st TOpen) Hl) as (A & B & C);
      [cbn; lia | exact Hg |]. auto.
  - assert (Es : token_step st (TCtl content) = st).
    { cbn [token_step]. rewrite Hg.
      destruct (-1 =? inservice st) eqn:E; [|reflexivity].
      apply Z.eqb_eq in E. lia. }
    rewrite Es. apply IH; assumption.
Qed.

(** X10: during the description fetch, a data event whose buffer holds
    neither the service identifier nor a closing service tag stores no
    control URL and leaves the world as it was, whatever earlier data
    events delivered: the depth and the pending identifier do not survive
    from one event to the next. *)
Theorem X10_buffer_without_identifier_stores_nothing
  (w : World) (c : UPnPClient) (pdata : string) :
  upnp_state w = upnp_found_igd ->
  the_client w = Some c ->
  forallb quiet_token (tokens pdata) = true ->
  upnp_tcp_recv_cb pdata w = Some w.
Proof.
  intros Es Ec Hq. unfold upnp_tcp_recv_cb. rewrite Es, Ec. cbn [bind_opt].
  rewrite service_scan_tokens.
  destruct (quiet_fold (tokens pdata) (mk_scan 0 (-1) None) Hq) as (_ & _ & Ef);
    [cbn; lia | reflexivity |].
  rewrite Ef. reflexivity.
Qed.

(** At depth -1 with no identifier pending every control URL is taken. *)
Lemma below_zero_fold (l : list token) (u : string) (o : option string) :
  forallb is_ctl l = true ->
  fold_left token_step (l ++ [TCtl u])%list (mk_scan (-1) (-1) o)
  = mk_scan (-1) (-1) (Some u).
Proof.
  revert o. induction l as [|t l IH]; intros o Hl.
  - reflexivity.
  - cbn [forallb] in Hl. apply andb_true_iff in Hl. destruct Hl as (Ht & Hl).
    destruct t; try discriminate Ht. cbn [app fold_left]. apply IH. exact Hl.
Qed.

(** X11: the depth counter and the "no identifier" mark share the value
    -1: in a buffer whose first service marker is a closing tag, the last
    control URL that follows it (before any other service marker) is stored
    although the buffer names no service identifier. *)
Theorem X11_control_url_taken_without_identifier
  (w : World) (c : UPnPClient) (pdata u : string) (c0 c1 : list token) :
  upnp_state w = upnp_found_igd ->
  the_client w = Some c ->
  forallb is_ctl (c0 ++ c1)%list = true ->
  tokens pdata = (c0 ++ [TClose] ++ c1 ++ [TCtl u])%list ->
  upnp_tcp_recv_cb pdata w =
    Some (set_client (set_g_control_url w (Some u))
                     (Some (set_control_url c (Some u)))).
Proof.
  intros Es Ec Hc Ht. apply forallb_app_split in Hc. destruct Hc as (H0 & H1).
  unfold upnp_tcp_recv_cb. rewrite Es, Ec. cbn [bind_opt].
  rewrite service_scan_tokens, Ht, fold_left_app.
  rewrite (skip_ctls c0) by (assumption || (cbn; lia)).
  cbn [app fold_left token_step inservice get_this found_url].
  change (0 - 1) with (-1). rewrite (below_zero_fold c1 u None H1). reflexivity.
Qed.

Lemma tolower_nul (x : ascii) : tolower x = NUL -> x = NUL.
Proof.
  destruct x as [[] [] [] [] [] [] [] []]; intro E; try reflexivity;
    vm_compute in E; discriminate E.
Qed.

(** [strncasecmp] against a literal compares the first bytes of the buffer
    up to letter case. *)
Lemma strncasecmp_eq_take (b a : string) :
  str_forall not_nul b = true ->
  strncasecmp_eq a b (String.length b) = true <->
  str_map tolower (str_take (String.length b) a) = str_map tolower b.
Proof.
  revert a. induction b as [|x b IH]; intros a Hb.
  - simpl. destruct a; split; reflexivity.
  - simpl in Hb. apply andb_true_iff in Hb. destruct Hb as (Hx & Hb).
    apply is_nul_false_of_not_nul in Hx.
    assert (Nx : tolower x <> NUL).
    { intro E. apply tolower_nul in E. subst x. discriminate Hx. }
    cbn [String.length strncasecmp_eq head_char tail_str].
    destruct a as [|y a]; cbn [head_char tail_str].
    + change (str_take (S (String.length b)) "") with "".
      destruct (Ascii.eqb_spec (tolower NUL) (tolower x)) as [E | N].
      * exfalso. apply Nx. symmetry. exact E.
      * split; discriminate.
    + change (str_take (S (String.length b)) (String y a))
        with (String y (str_take (String.length b) a)).
      cbn [str_map].
      destruct (Ascii.eqb_spec (tolower y) (tolower x)) as [E | N].
      * assert (Ny : is_nul y = false).
        { destruct (is_nul y) eqn:En; [|reflexivity].
          apply Ascii.eqb_eq in En. subst y. exfalso. apply Nx. symmetry. exact E. }
        rewrite Ny, (IH a Hb), E. split; [congruence|].
        intro K. inversion K. reflexivity.
      * split; [discriminate|]. intro K. inversion K. contradiction.
Qed.

Lemma has_tag_iff (p : string) :
  has_external_ip_tag p = true <->
  exists i, (i < String.length p)%nat /\
            str_map tolower (str_take 22 (str_drop i p)) = "<newexternalipaddress>".
Proof.
  pose proof (fun a => strncasecmp_eq_take "<NewExternalIPAddress>" a eq_refl) as K.
  change (String.length "<NewExternalIPAddress>") with 22%nat in K.
  change (str_map tolower "<NewExternalIPAddress>") with "<newexternalipaddress>" in K.
  induction p as [|x p IH].
  - split; [discriminate|]. intros (i & Hi & _). simpl in Hi. lia.
  - cbn [has_external_ip_tag]. rewrite orb_true_iff. split.
    + intros [E | E].
      * exists 0%nat. split; [simpl; lia|]. apply K. exact E.
      * apply IH in E. destruct E as (i & Hi & E). exists (S i).
        split; [simpl; lia | exact E].
    + intros (i & Hi & E). destruct i as [|i].
      * left. apply K. exact E.
      * right. apply IH. exists i. split; [simpl in Hi; lia | exact E].
Qed.

(** X12: while the external-address query is outstanding, a data event
    matters only through whether its buffer holds the open tag
    [<NewExternalIPAddress>] somewhere, in any letter case: without it the
    world is left as it was; with it the session's host is parsed and,
    when that succeeds, stored as external address - the bytes after the
    tag play no part. *)
Theorem X12_external_address_reply
  (w : World) (c : UPnPClient) (h pdata : string) :
  upnp_state w = upnp_query_extaddress ->
  the_client w = Some c ->
  host c = Some h ->
  ((forall i, (i < String.length pdata)%nat ->
      str_map tolower (str_take 22 (str_drop i pdata)) <> "<newexternalipaddress>") ->
   upnp_tcp_recv_cb pdata w = Some w) /\
  ((exists i, (i < String.length pdata)%nat /\
      str_map tolower (str_take 22 (str_drop i pdata)) = "<newexternalipaddress>") ->
   upnp_tcp_recv_cb pdata w =
     Some match UTILS_StrToIP h with
          | Some e => set_client w (Some (set_external_address c e))
          | None => w
          end).
Proof.
  intros Es Ec Eh. split.
  - intro Hn. unfold upnp_tcp_recv_cb. rewrite Es, Ec. cbn [bind_opt].
    destruct (has_external_ip_tag pdata) eqn:Et; [|reflexivity].
    apply has_tag_iff in Et. destruct Et as (i & Hi & E).
    exfalso. exact (Hn i Hi E).
  - intro Hx. apply has_tag_iff in Hx.
    apply recv_extaddress_parses_host; assumption.
Qed.

Lemma sprintf_add_xml (rp lp a b c d : Z) :
  os_sprintf upnp_query_add_xml [ArgD rp; ArgD lp; ArgD a; ArgD b; ArgD c; ArgD d]
  = Some (add_xml rp lp a b c d).
Proof. reflexivity. Qed.

Lemma sprintf_remove_xml (rp : Z) :
  os_sprintf upnp_query_remove_xml [ArgD rp] = Some (remove_xml rp).
Proof. reflexivity. Qed.

Lemma sprintf_add_tmpl (u h xml : string) :
  os_sprintf upnp_query_add_tmpl [ArgS u; ArgS h; ArgD (strlen xml); ArgS xml]
  = Some (add_request u h xml).
Proof.
  assert (K : forall n x, os_sprintf upnp_query_add_tmpl [ArgS u; ArgS h; ArgD n; ArgS x]
                          = Some (add_request_text u h n (x ++ ""))) by reflexivity.
  rewrite K, str_app_nil_r. reflexivity.
Qed.

Lemma sprintf_extaddr_tmpl (u h xml : string) :
  os_sprintf upnp_query_external_address [ArgS u; ArgS h; ArgD (strlen xml); ArgS xml]
  = Some (extaddr_request u h xml).
Proof.
  assert (K : forall n x,
             os_sprintf upnp_query_external_address [ArgS u; ArgS h; ArgD n; ArgS x]
             = Some (extaddr_request_text u h n (x ++ ""))) by reflexivity.
  rewrite K, str_app_nil_r. reflexivity.
Qed.

(** The texts of the three operation requests. *)
Lemma operation_request_texts (c : UPnPClient) (u h : string) :
  control_url c = Some u ->
  host c = Some h ->
  build_query upnp_adding_port c =
    Some (Some (add_request u h
                  (add_xml (remote_port c) (port c)
                           (ip4_addr4 (ip c)) (ip4_addr3 (ip c))
                           (ip4_addr2 (ip c)) (ip4_addr1 (ip c))))) /\
  build_query upnp_query_extaddress c =
    Some (Some (extaddr_request u h upnp_query_external_address_xml)) /\
  build_query upnp_removing_port c =
    Some (Some (remove_headers u h (strlen (remove_xml (remote_port c))))).
Proof.
  intros Eu Eh. split; [|split].
  - unfold build_query. rewrite sprintf_add_xml, Eu, Eh. cbn [bind_opt].
    rewrite sprintf_add_tmpl. reflexivity.
  - unfold build_query. rewrite Eu, Eh. cbn [bind_opt].
    rewrite sprintf_extaddr_tmpl. reflexivity.
  - apply remove_request_is_headers_only; [exact Eu | exact Eh |].
    apply sprintf_remove_xml.
Qed.

(** X13: for every session that holds a control URL and a host, the three
    operation requests are these texts.  The add and the external-address
    requests end, after a blank line, with their XML, and announce its
    length; the internal client of the add request is rendered from the
    address bytes in the order fourth, third, second, first.  The remove
    request announces the length of its XML and ends with its last header
    line. *)
Theorem X13_operation_request_texts (c : UPnPClient) (u h : string) :
  control_url c = Some u ->
  host c = Some h ->
  build_query upnp_adding_port c =
    Some (Some (add_request u h
                  (add_xml (remote_port c) (port c)
                           (ip4_addr4 (ip c)) (ip4_addr3 (ip c))
                           (ip4_addr2 (ip c)) (ip4_addr1 (ip c))))) /\
  build_query upnp_query_extaddress c =
    Some (Some (extaddr_request u h upnp_query_external_address_xml)) /\
  build_query upnp_removing_port c =
    Some (Some (remove_headers u h (strlen (remove_xml (remote_port c))))).
Proof.
  intros Eu Eh. destruct (operation_request_texts c u h Eu Eh) as (Ka & Kq & Kr).
  split; [exact Ka|]. split; [exact Kq | exact Kr].
Qed.

End Replies.

(** * Further properties: what discovery leaves, and accepted operations *)

Section Operations.

Context `{Platform}.

Lemma query_igd_keeps (c : UPnPClient) (w0 w' : World) :
  upnp_query_igd c w0 = Some w' ->
  exists c', the_client w' = Some c' /\ host c' = host c /\
             path c' = path c /\ location c' = location c.
Proof.
  unfold upnp_query_igd.
  destruct (build_query _ _) as [[q|]|]; cbn [bind_opt]; try discriminate.
  - cbn [host set_data set_con]. destruct (host c) as [h|] eqn:Eh; cbn [bind_opt];
      [|discriminate].
    destruct (UTILS_StrToIP h); intro Q; inversion Q; subst;
      (eexists; split; [reflexivity|]; cbn; auto).
  - intro Q; inversion Q; subst. eexists. split; [reflexivity|]. cbn. auto.
Qed.

Lemma discovered_ext (c c' : UPnPClient) :
  host c' = host c -> path c' = path c -> location c' = location c ->
  discovered c -> discovered c'.
Proof.
  intros Eh Ep El (h & p & l & Hh & Hp & Hl & Hs).
  exists h, p, l. rewrite Eh, Ep, El. auto.
Qed.

(** A step that keeps the three strings of the session and does not move
    into a state past discovery from one before it. *)
Lemma disc_preserved (w w' : World) :
  discovery_inv w ->
  (past_discovery (upnp_state w') = true -> past_discovery (upnp_state w) = true) ->
  (forall c, the_client w = Some c ->
     exists c', the_client w' = Some c' /\ host c' = host c /\
                path c' = path c /\ location c' = location c) ->
  discovery_inv w'.
Proof.
  intros I Hs Hc P. destruct (I (Hs P)) as (c & Ec & D).
  destruct (Hc c Ec) as (c' & Ec' & Eh & Ep & El).
  exists c'. split; [exact Ec'|]. exact (discovered_ext c c' Eh Ep El D).
Qed.

Lemma disc_after_query (w w0 w1 : World) (c c1 : UPnPClient) :
  discovery_inv w ->
  past_discovery (upnp_state w) = true ->
  the_client w = Some c ->
  host c1 = host c -> path c1 = path c -> location c1 = location c ->
  upnp_query_igd c1 w0 = Some w1 ->
  discovery_inv (respond 0 w1).
Proof.
  intros I P Ec Eh Ep El Q _. destruct (I P) as (c0 & Ec0 & D).
  rewrite Ec in Ec0. inversion Ec0; subst c0.
  destruct (query_igd_keeps _ _ _ Q) as (c' & Ec' & Eh' & Ep' & El').
  exists c'. split; [exact Ec'|].
  apply (discovered_ext c c'); congruence.
Qed.

Ltac keep_session :=
  cbn [the_client respond emit set_client set_state set_counter];
  let E := fresh "E" in
  intros ? E;
  first [ eexists; split; [exact E | auto]
        | inversion E; subst; eexists; split; [reflexivity|]; cbn; auto ].

Ltac keep_state :=
  cbn [upnp_state respond emit set_client set_state set_counter]; auto.

Lemma discovery_inv_step (w w' : World) (e : event) :
  discovery_inv w -> step w e = Some w' -> discovery_inv w'.
Proof.
  intros I S. destruct e; simpl in S.
  - (* cmdUPnPBegin *) inversion S; subst. intro P. discriminate P.
  - (* cmdUPnPScan *)
    inversion S; subst. clear S. unfold cmdUPnPScan.
    destruct (upnp_state_eqb (upnp_state w) upnp_ready).
    + destruct (the_client w) as [c|] eqn:Ec;
        (apply (disc_preserved w); [exact I | keep_state | keep_session]).
    + destruct alloc_con; cbn [negb]; [|intro P; discriminate P].
      destruct alloc_udp; cbn [negb]; [|intro P; discriminate P].
      destruct (UTILS_StrToIP upnp_ssdp_multicast); intro P; discriminate P.
  - (* cmdUPnPAddPort *)
    unfold cmdUPnPAddPort in S.
    destruct (negb _); [inversion S; subst; exact I|].
    destruct (cmdPopArg _ 4) as [[v1 r1]|]; [|inversion S; subst; exact I].
    destruct (cmdPopArg r1 2) as [[v2 r2]|]; [|inversion S; subst; exact I].
    destruct (cmdPopArg r2 2) as [[v3 r3]|]; [|inversion S; subst; exact I].
    destruct (gateway_ready w) as [c|] eqn:G.
    + apply gateway_ready_some in G. destruct G as (Ec & _ & Es).
      destruct (upnp_query_igd _ _) as [w1|] eqn:Q; simpl in S; [|discriminate].
      inversion S; subst.
      refine (disc_after_query w _ w1 c _ I _ Ec _ _ _ Q);
        [rewrite Es; reflexivity | reflexivity ..].
    + inversion S; subst.
      apply (disc_preserved w); [exact I | keep_state | keep_session].
  - (* cmdUPnPRemovePort *)
    unfold cmdUPnPRemovePort in S.
    destruct (negb _); [inversion S; subst; exact I|].
    destruct (cmdPopArg _ 2) as [[v1 r1]|]; [|inversion S; subst; exact I].
    destruct (gateway_ready w) as [c|] eqn:G.
    + apply gateway_ready_some in G. destruct G as (Ec & _ & Es).
      destruct (upnp_query_igd _ _) as [w1|] eqn:Q; simpl in S; [|discriminate].
      inversion S; subst.
      refine (disc_after_query w _ w1 c _ I _ Ec _ _ _ Q);
        [rewrite Es; reflexivity | reflexivity ..].
    + inversion S; subst.
      apply (disc_preserved w); [exact I | keep_state | keep_session].
  - (* cmdUPnPQueryExternalAddress *)
    unfold cmdUPnPQueryExternalAddress in S.
    destruct (the_client w) as [c|] eqn:Ec.
    2:{ inversion S; subst.
        apply (disc_preserved w); [exact I | keep_state | keep_session]. }
    destruct (remote_ip c =? 0).
    { inversion S; subst.
      apply (disc_preserved w); [exact I | keep_state | keep_session]. }
    destruct (upnp_state w) eqn:Es;
      try (inversion S; subst;
           apply (disc_preserved w);
           [exact I | cbn [upnp_state respond emit]; rewrite Es; auto | keep_session];
           fail).
    + destruct (upnp_query_igd _ _) as [w1|] eqn:Q; simpl in S; [|discriminate].
      inversion S; subst.
      refine (disc_after_query w _ w1 c _ I _ Ec _ _ _ Q);
        [rewrite Es; reflexivity | reflexivity ..].
    + inversion S; subst. clear S.
      destruct (negb (external_address c =? 0));
        (apply (disc_preserved w);
         [exact I | cbn [upnp_state respond emit set_state]; rewrite Es; auto
         | keep_session]).
  - (* ssdp_recv_cb *)
    unfold ssdp_recv_cb in S.
    destruct (upnp_state w) eqn:Es; try (inversion S; subst; exact I).
    destruct (the_client w) as [c|] eqn:Ec; simpl in S; [|discriminate].
    destruct (find_location _ _ _) as [i|]; [|inversion S; subst; exact I].
    destruct (upnp_analyze_location _ _ _) as [c1|] eqn:Ea; simpl in S; [|discriminate].
    destruct (query_igd_keeps _ _ _ S) as (c' & Ec' & Eh' & Ep' & El').
    cbn [host path location set_con] in Eh', Ep', El'.
    intros _. exists c'. split; [exact Ec'|].
    assert (Hl : (7 <= i + 11 + span_until is_cr (str_drop (i + 11) pusrdata) - (i + 11))%nat).
    { unfold upnp_analyze_location in Ea.
      destruct (Nat.ltb _ 7) eqn:E7; [discriminate|]. apply Nat.ltb_ge in E7. exact E7. }
    destruct (analyze_location_split c (str_drop (i + 11) pusrdata) _ Hl)
      as (c1' & l & h & p & Ea' & Hloc & _ & Hh & Hp & Hs & _).
    rewrite Ea in Ea'. inversion Ea'; subst c1'.
    exists h, p, l. rewrite Eh', Ep', El'. auto.
  - (* ssdp_sent_cb *)
    inversion S; subst. clear S. unfold ssdp_sent_cb.
    destruct (_ && _)%bool; [|exact I].
    apply (disc_preserved w); [exact I | keep_state | keep_session].
  - (* upnp_tcp_connect_cb *)
    unfold upnp_tcp_connect_cb in S.
    destruct (the_client w) as [c|] eqn:Ec; simpl in S; [|discriminate].
    inversion S; subst. clear S.
    apply (disc_preserved w); [exact I | keep_state | rewrite Ec; keep_session].
  - (* upnp_tcp_sent_cb *)
    unfold upnp_tcp_sent_cb in S.
    destruct (the_client w) as [c|] eqn:Ec; simpl in S; [|discriminate].
    destruct (negb _); inversion S; subst; clear S;
      (apply (disc_preserved w); [exact I | keep_state | rewrite Ec; keep_session]).
  - (* upnp_tcp_recv_cb *)
    unfold upnp_tcp_recv_cb in S.
    destruct (upnp_state w) eqn:Es; try (inversion S; subst; exact I).
    + destruct (the_client w) as [c|] eqn:Ec; simpl in S; [|discriminate].
      destruct (found_url _); inversion S; subst; [|exact I]. clear S.
      apply (disc_preserved w); [exact I | keep_state | rewrite Ec; keep_session].
    + destruct (the_client w) as [c|] eqn:Ec; simpl in S; [|discriminate].
      destruct (has_external_ip_tag pdata); [|inversion S; subst; exact I].
      destruct (host c) as [h|] eqn:Eh; simpl in S; [|discriminate].
      destruct (UTILS_StrToIP h); inversion S; subst; [|exact I]. clear S.
      apply (disc_preserved w); [exact I | keep_state | rewrite Ec; keep_session].
  - (* upnp_tcp_discon_cb *)
    unfold upnp_tcp_discon_cb in S.
    destruct (the_client w) as [c|] eqn:Ec; simpl in S; [|discriminate].
    destruct (upnp_state w) eqn:Es; inversion S; subst; clear S;
      (apply (disc_preserved w);
       [exact I
       | cbn [upnp_state respond emit set_client set_state]; rewrite ?Es; auto
       | rewrite Ec; keep_session]).
  - (* upnp_tcp_recon_cb *) inversion S; subst. exact I.
  - (* upnp_dns_found *)
    inversion S; subst. clear S. unfold upnp_dns_found.
    destruct ipaddr as [a|]; [|exact I].
    destruct (the_client w) as [c|] eqn:Ec; [|exact I].
    destruct (_ && _)%bool; [|exact I].
    apply (disc_preserved w); [exact I | keep_state | rewrite Ec; keep_session].
Qed.

Lemma reachable_discovery_inv (w : World) : reachable w -> discovery_inv w.
Proof.
  intros (evs & R).
  assert (K : forall evs w0 w1, discovery_inv w0 -> run w0 evs = Some w1 ->
                                discovery_inv w1).
  { clear. intro evs. induction evs as [|e evs IH]; intros w0 w1 I R; simpl in R.
    - inversion R; subst. exact I.
    - destruct (step w0 e) as [w2|] eqn:S; simpl in R; [|discriminate].
      eapply IH; [|exact R]. eapply discovery_inv_step; eauto. }
  apply (K evs initial_world w); [|exact R]. intro P. discriminate P.
Qed.


Lemma build_query_fields (s : upnp_state_t) (c c' : UPnPClient) :
  path c' = path c -> location c' = location c ->
  control_url c' = control_url c -> host c' = host c ->
  remote_port c' = remote_port c -> port c' = port c -> ip c' = ip c ->
  build_query s c' = build_query s c.
Proof.
  intros E1 E2 E3 E4 E5 E6 E7. unfold build_query.
  rewrite E1, E2, E3, E4, E5, E6, E7. reflexivity.
Qed.

Lemma operation_request_exists (s : upnp_state_t) (c : UPnPClient) (u h : string) :
  control_url c = Some u -> host c = Some h -> is_operation s = true ->
  exists q, build_query s c = Some (Some q).
Proof.
  intros Eu Eh Hs. destruct (operation_request_texts c u h Eu Eh) as (Ka & Kq & Kr).
  destruct s; try discriminate Hs; eexists; eassumption.
Qed.

(** From Ready, with a gateway address and a control URL, the request for
    an operation is built and a connect to the gateway address is made. *)
Lemma operation_starts (w : World) (c c1 : UPnPClient) (u : string) (s : upnp_state_t) :
  reachable w ->
  the_client w = Some c ->
  remote_ip c <> 0 ->
  control_url c = Some u ->
  host c1 = host c -> control_url c1 = control_url c ->
  remote_ip c1 = remote_ip c -> control_port c1 = control_port c ->
  is_operation s = true ->
  exists w1 c',
    upnp_query_igd c1 (set_state w s) = Some w1 /\
    started w c s (respond 0 w1) /\
    the_client w1 = Some c' /\
    ip c' = ip c1 /\ port c' = port c1 /\ remote_port c' = remote_port c1.
Proof.
  intros R Ec Nz Eu Eh1 Eu1 Er1 Ep1 Hs.
  destruct (reachable_inv w R) as (I2 & _ & _).
  destruct (I2 c Ec Nz) as (h & Eh & Ea).
  set (k := Some (mk_espconn ESPCONN_TCP (control_port c1) 0)).
  destruct (operation_request_exists s (set_con c1 k) u h) as (q & Eq);
    [cbn; congruence | cbn; congruence | exact Hs |].
  unfold upnp_query_igd. fold k. cbn [upnp_state set_state]. rewrite Eq.
  cbn [bind_opt host set_data set_con]. rewrite Eh1, Eh. cbn [bind_opt]. rewrite Ea.
  eexists. eexists. split; [reflexivity|]. split; [|cbn; auto].
  split; [reflexivity|]. split.
  { cbn [trace respond emit set_client set_state]. rewrite Ep1. reflexivity. }
  eexists. exists q. split; [reflexivity|]. split.
  { rewrite <- Eq. apply build_query_fields; reflexivity. }
  cbn. auto 10.
Qed.

(** X15: in every reachable world in state Ready whose session has a
    gateway address and a control URL, each of AddPort, RemovePort (with
    readable arguments) and QueryExternalAddress is accepted: the reply is
    0, the state becomes Adding, Removing or QueryingExternalAddress, a
    connect to the gateway address and control port is made, and the
    request of the operation waits in the buffer; the arguments are stored
    narrowed to their C types. *)
Theorem X15_operations_are_accepted_from_ready
  (w : World) (c : UPnPClient) (u : string)
  (cmd_add cmd_remove : CmdPacket)
  (v1 v2 v3 v : Z) (r1 r2 r3 r : CmdRequest) :
  reachable w ->
  upnp_state w = upnp_ready ->
  the_client w = Some c ->
  remote_ip c <> 0 ->
  control_url c = Some u ->
  cmdGetArgc (cmdRequest cmd_add) = 3 ->
  cmdPopArg (cmdRequest cmd_add) 4 = Some (v1, r1) ->
  cmdPopArg r1 2 = Some (v2, r2) ->
  cmdPopArg r2 2 = Some (v3, r3) ->
  cmdGetArgc (cmdRequest cmd_remove) = 1 ->
  cmdPopArg (cmdRequest cmd_remove) 2 = Some (v, r) ->
  (exists w' c',
     cmdUPnPAddPort cmd_add w = Some w' /\ started w c upnp_adding_port w' /\
     the_client w' = Some c' /\
     ip c' = uint32 v1 /\ port c' = uint16 v2 /\ remote_port c' = uint16 v3) /\
  (exists w' c',
     cmdUPnPRemovePort cmd_remove w = Some w' /\ started w c upnp_removing_port w' /\
     the_client w' = Some c' /\ remote_port c' = uint16 v) /\
  (exists w',
     cmdUPnPQueryExternalAddress w = Some w' /\ started w c upnp_query_extaddress w').
Proof.
  intros R Es Ec Nz Eu Ca E1 E2 E3 Cr E.
  assert (G : gateway_ready w = Some c).
  { unfold gateway_ready. rewrite Ec, Es. apply Z.eqb_neq in Nz. rewrite Nz. reflexivity. }
  split; [|split].
  - unfold cmdUPnPAddPort. rewrite Ca, E1, E2, E3. cbn [Z.eqb negb]. rewrite G.
    destruct (operation_starts w c (set_mapping c (uint32 v1) (uint16 v2) (uint16 v3))
                u upnp_adding_port R Ec Nz Eu)
      as (w1 & c' & Q & St & Ec' & Ei & Ep & Er); try reflexivity.
    rewrite Q. cbn [bind_opt]. exists (respond 0 w1), c'.
    split; [reflexivity|]. split; [exact St|]. cbn in Ei, Ep, Er. auto.
  - unfold cmdUPnPRemovePort. rewrite Cr, E. cbn [Z.eqb negb]. rewrite G.
    destruct (operation_starts w c (set_mapping c (ip c) (port c) (uint16 v))
                u upnp_removing_port R Ec Nz Eu)
      as (w1 & c' & Q & St & Ec' & Ei & Ep & Er); try reflexivity.
    rewrite Q. cbn [bind_opt]. exists (respond 0 w1), c'.
    split; [reflexivity|]. split; [exact St|]. cbn in Er. auto.
  - unfold cmdUPnPQueryExternalAddress. rewrite Ec, Es.
    apply Z.eqb_neq in Nz. rewrite Nz. apply Z.eqb_neq in Nz.
    destruct (operation_starts w c c u upnp_query_extaddress R Ec Nz Eu)
      as (w1 & c' & Q & St & _); try reflexivity.
    rewrite Q. cbn [bind_opt]. exists (respond 0 w1). split; [reflexivity | exact St].
Qed.

(** X16: in every reachable world in state Ready a scan request starts
    nothing: whatever the allocator would do, it only replies with the
    session's gateway address, which is 0 or the address the parser reads
    off the session's host. *)
Theorem X16_scan_in_ready_reports_the_gateway (w : World) :
  reachable w ->
  upnp_state w = upnp_ready ->
  exists c,
    the_client w = Some c /\
    (forall a b, cmdUPnPScan a b w = respond (remote_ip c) w) /\
    (remote_ip c = 0 \/
     exists h, host c = Some h /\ UTILS_StrToIP h = Some (remote_ip c)).
Proof.
  intros R Es.
  destruct (reachable_discovery_inv w R) as (c & Ec & _); [rewrite Es; reflexivity|].
  destruct (reachable_inv w R) as (I2 & _ & _).
  exists c. split; [exact Ec|]. split.
  - intros a b. unfold cmdUPnPScan. rewrite Es, Ec. reflexivity.
  - destruct (Z.eq_dec (remote_ip c) 0) as [Ez | Nz]; [left; exact Ez|].
    right. exact (I2 c Ec Nz).
Qed.

End Operations.

(** * The model on concrete sessions *)

(** C1: the code at a discovery followed by an AddPort (or RemovePort)
    request and the full exchange on its connection, disconnect included:
    the state is still Adding (Removing), not Ready, and the next AddPort
    request is answered -1. *)
Theorem C1_disconnect_leaves_adding_and_removing :
  (exists w, sim_run initial_world add_port_session = Some w /\
             upnp_state w = upnp_adding_port /\
             exists w', step w add_port_event = Some w' /\
                        trace w' = CmdResponse (-1) :: trace w) /\
  (exists w, sim_run initial_world remove_port_session = Some w /\
             upnp_state w = upnp_removing_port).
Proof.
  split.
  - eexists. split; [vm_compute; reflexivity|]. split; [reflexivity|].
    eexists. split; vm_compute; reflexivity.
  - eexists. split; [vm_compute; reflexivity|]. reflexivity.
Qed.

(** C2: the code at RemovePort(9876) after discovery: the request
    announces 429 bytes of XML and ends with its last header line; no blank
    line and no body follow.  The AddPort and GetExternalIPAddress requests
    of the same session do carry a body of the announced length. *)
Theorem C2_delete_request_announces_absent_body :
  (exists q, build_query upnp_removing_port mapping_client = Some (Some q) /\
             q = remove_headers "/ctl" "192.168.1.1:8000" 429 /\
             content_length q = Some 429 /\
             http_body q = EmptyString /\
             index 0 "<?xml" q = None) /\
  (exists q, build_query upnp_adding_port mapping_client = Some (Some q) /\
             content_length q = Some (strlen (http_body q))) /\
  (exists q, build_query upnp_query_extaddress mapping_client = Some (Some q) /\
             content_length q = Some (strlen (http_body q))).
Proof.
  split_all; eexists; (split; [vm_compute; reflexivity|]);
    split_all; vm_compute; reflexivity.
Qed.

(** C3: the code at a reply carrying
    [<NewExternalIPAddress>83.134.116.129</NewExternalIPAddress>], received
    while the query is outstanding on a session whose host is
    [192.168.1.1:8000]: the address stored is 192.168.1.1, the parse of the
    host, not 83.134.116.129, the text after the tag. *)
Theorem C3_external_address_is_parsed_from_host :
  exists w c,
    sim_run initial_world (querying_events ++ [TcpRecv external_ip_reply])%list = Some w /\
    the_client w = Some c /\
    host c = Some "192.168.1.1:8000" /\
    dotted_quad "192.168.1.1:8000" = Some (external_address c) /\
    dotted_quad "83.134.116.129</NewExternalIPAddress>" = Some 2171897427 /\
    external_address c = 16885952.
Proof.
  eexists. eexists. split; [vm_compute; reflexivity|].
  split; [reflexivity|]. split_all; vm_compute; reflexivity.
Qed.


(** Without a port the first loop runs to the end of the location, so the
    second finds no slash: the path is empty and host holds the rest. *)
Lemma location_without_port_loses_path :
  exists c,
    upnp_analyze_location zalloc_client "http://192.168.1.1/desc.xml" 27 = Some c /\
    control_port c = 80 /\
    path c = Some EmptyString /\
    host c = Some "192.168.1.1/desc.xml".
Proof.
  eexists. split; [vm_compute; reflexivity|]. split_all; reflexivity.
Qed.


(** The claim of C5 fails as stated: on the scenario it describes, host is
    not [192.168.1.1]. *)
Lemma C5_host_is_not_the_bare_address :
  exists w c,
    sim_run initial_world
      (discovery_scenario "LOCATION: http://192.168.1.1:8000/desc.xml") = Some w /\
    upnp_state w = upnp_ready /\
    the_client w = Some c /\
    host c = Some "/192.168.1.1:8000" /\
    host c <> Some "192.168.1.1".
Proof.
  eexists. eexists. split; [vm_compute; reflexivity|].
  split; [reflexivity|]. split; [reflexivity|]. split; [reflexivity|]. discriminate.
Qed.

Lemma C5_discovery_end_to_end_witness :
  UTILS_StrToIP (Platform := sim_platform) upnp_ssdp_multicast = Some 4211081199 /\
  (exists w c,
     sim_run initial_world
       (discovery_scenario "LOCATION: http://192.168.1.1:8000/desc.xml") = Some w /\
     upnp_state w = upnp_ready /\
     the_client w = Some c /\
     control_port c = 8000 /\
     control_url c = Some "/ctl") /\
  (exists w c,
     sim_run initial_world
       (discovery_scenario "LOCATION:http://192.168.1.1:8000/desc.xml") = Some w /\
     upnp_state w = upnp_ready /\
     the_client w = Some c /\
     host c = Some "192.168.1.1:8000" /\
     control_port c = 8000 /\
     control_url c = Some "/ctl").
Proof.
  assert (Hm : UTILS_StrToIP (Platform := sim_platform) upnp_ssdp_multicast
               = Some 4211081199) by (vm_compute; reflexivity).
  split; [exact Hm|].
  exact (C5_discovery_end_to_end (H := sim_platform) 4211081199 Hm).
Defined.

(** The claim of C6 fails as stated: a scan followed by send-completion
    events hands the datagram to the transport five times, not four. *)
Lemma C6_five_datagrams_after_scan :
  exists w,
    sim_run initial_world (CmdScan true true :: six_completions) = Some w /\
    ssdp_sends (trace w) = 5 /\
    ~ ssdp_sends (trace w) <= 4.
Proof.
  eexists. split; [vm_compute; reflexivity|]. split; [reflexivity|].
  vm_compute. intro E. apply E. reflexivity.
Qed.

Lemma C6_discovery_sends_witness :
  forallb (fun e => negb (is_scan (H := sim_platform) e)) six_completions = true /\
  run (H := sim_platform) (cmdUPnPScan (H := sim_platform) true true initial_world)
      six_completions = Some flooded_world /\
  ssdp_sends (trace flooded_world) <= ssdp_sends (trace initial_world) + 5.
Proof.
  assert (F : forallb (fun e => negb (is_scan (H := sim_platform) e)) six_completions
              = true) by reflexivity.
  assert (R : run (H := sim_platform)
                (cmdUPnPScan (H := sim_platform) true true initial_world)
                six_completions = Some flooded_world) by (vm_compute; reflexivity).
  split; [exact F|]. split; [exact R|].
  exact (C6_discovery_sends_at_most_five (H := sim_platform) true true initial_world
           flooded_world six_completions F R).
Defined.

(** The claim of C7 fails as stated: a scan request in state Adding is not
    rejected, it restarts discovery on a new connection; and a
    QueryExternalAddress request in state QueryingExternalAddress is
    answered 0, not -1. *)
Lemma C7_scan_while_adding_restarts_discovery :
  sim_run initial_world add_port_session = Some adding_world /\
  upnp_state adding_world = upnp_adding_port /\
  upnp_state (cmdUPnPScan (H := sim_platform) true true adding_world) = upnp_multicasted /\
  trace (cmdUPnPScan (H := sim_platform) true true adding_world) =
    CmdResponse 0 :: Espconn_sent ssdp_message :: Espconn_create :: trace adding_world /\
  upnp_state querying_world = upnp_query_extaddress /\
  cmdUPnPQueryExternalAddress (H := sim_platform) querying_world =
    Some (respond 0 querying_world).
Proof.
  split_all; vm_compute; reflexivity.
Qed.

Lemma C7_busy_replies_witness :
  upnp_state adding_world <> upnp_ready /\
  add_args_readable (H := sim_platform) add_packet /\
  remove_args_readable (H := sim_platform) remove_packet /\
  UTILS_StrToIP (Platform := sim_platform) upnp_ssdp_multicast = Some 4211081199 /\
  cmdUPnPAddPort (H := sim_platform) add_packet adding_world
    = Some (respond (-1) adding_world) /\
  cmdUPnPRemovePort (H := sim_platform) remove_packet adding_world
    = Some (respond (-1) adding_world) /\
  (upnp_state adding_world <> upnp_query_extaddress ->
   cmdUPnPQueryExternalAddress (H := sim_platform) adding_world
     = Some (respond (-1) adding_world)) /\
  cmdUPnPScan (H := sim_platform) true true adding_world
    = scan_started adding_world 4211081199.
Proof.
  assert (Hs : upnp_state adding_world <> upnp_ready) by (vm_compute; discriminate).
  assert (Ha : add_args_readable (H := sim_platform) add_packet).
  { split; [reflexivity|]. do 6 eexists. split_all; reflexivity. }
  assert (Hr : remove_args_readable (H := sim_platform) remove_packet).
  { split; [reflexivity|]. do 2 eexists. reflexivity. }
  assert (Hm : UTILS_StrToIP (Platform := sim_platform) upnp_ssdp_multicast
               = Some 4211081199) by (vm_compute; reflexivity).
  split; [exact Hs|]. split; [exact Ha|]. split; [exact Hr|]. split; [exact Hm|].
  exact (C7_busy_replies_and_scan_restart (H := sim_platform)
           add_packet remove_packet adding_world 4211081199 Hs Ha Hr Hm).
Defined.

Lemma C8_external_address_poll_witness :
  reachable (H := sim_platform) querying_world /\
  upnp_state querying_world = upnp_query_extaddress /\
  exists c, the_client querying_world = Some c /\
    (external_address c = 0 ->
     cmdUPnPQueryExternalAddress (H := sim_platform) querying_world
       = Some (respond 0 querying_world)) /\
    (external_address c <> 0 ->
     cmdUPnPQueryExternalAddress (H := sim_platform) querying_world
       = Some (respond (external_address c) (set_state querying_world upnp_ready))).
Proof.
  assert (R : reachable (H := sim_platform) querying_world).
  { exists querying_events. vm_compute. reflexivity. }
  assert (Es : upnp_state querying_world = upnp_query_extaddress)
    by (vm_compute; reflexivity).
  split; [exact R|]. split; [exact Es|].
  exact (C8_external_address_poll (H := sim_platform) querying_world R Es).
Defined.



Lemma C10_unreadable_commands_witness :
  add_args_unreadable (H:=sim_platform) bad_width_packet /\
  remove_args_unreadable (H:=sim_platform) bad_remove_packet /\
  cmdUPnPAddPort (H:=sim_platform) bad_width_packet initial_world = Some initial_world /\
  cmdUPnPRemovePort (H:=sim_platform) bad_remove_packet initial_world = Some initial_world.
Proof.
  assert (Ha : add_args_unreadable (H:=sim_platform) bad_width_packet).
  { right. right. left. exists 1, (mk_packet 3 [(1, 80); (2, 9876)]).
    split; reflexivity. }
  assert (Hr : remove_args_unreadable (H:=sim_platform) bad_remove_packet).
  { right. reflexivity. }
  split; [exact Ha|]. split; [exact Hr|].
  exact (C10_unreadable_commands_are_dropped (H:=sim_platform)
           bad_width_packet bad_remove_packet initial_world Ha Hr).
Defined.

(** * Further properties on concrete sessions *)

Lemma X2_datagram_without_location_witness :
  the_client scanning_world = Some scanning_client /\
  (forall j, (j + 20 < String.length notify_datagram)%nat ->
             str_take 11 (str_drop j notify_datagram) <> location_marker) /\
  ssdp_recv_cb (H := sim_platform) notify_datagram scanning_world = Some scanning_world.
Proof.
  assert (Ec : the_client scanning_world = Some scanning_client)
    by (vm_compute; reflexivity).
  assert (Hn : forall j, (j + 20 < String.length notify_datagram)%nat ->
                 str_take 11 (str_drop j notify_datagram) <> location_marker).
  { assert (El : String.length notify_datagram = 66%nat) by (vm_compute; reflexivity).
    assert (Ef : find_location notify_datagram 0 46 = None) by (vm_compute; reflexivity).
    pose proof (find_location_spec notify_datagram 0 46) as K. rewrite Ef in K.
    intros j Hj. apply K. rewrite El in Hj. lia. }
  split; [exact Ec|]. split; [exact Hn|].
  exact (X2_datagram_without_location_is_ignored (H := sim_platform)
           scanning_world scanning_client notify_datagram Ec Hn).
Defined.

Lemma X3_location_reply_witness :
  upnp_state scanning_world = upnp_multicasted /\
  the_client scanning_world = Some scanning_client /\
  find_location reply_datagram 0
    (Z.to_nat (Z.of_nat (String.length reply_datagram) - 20)) = Some 44%nat /\
  (7 <= String.length (location_value reply_datagram 44))%nat /\
  exists w' c' p,
    ssdp_recv_cb (H := sim_platform) reply_datagram scanning_world = Some w' /\
    upnp_state w' = upnp_found_igd /\
    the_client w' = Some c' /\
    location c' = Some (location_value reply_datagram 44) /\
    path c' = Some p /\
    data c' = Some (get_request p (location_value reply_datagram 44)) /\
    exists e, trace w' = e :: Espconn_delete :: trace scanning_world /\
              opens_connection e = true.
Proof.
  assert (Es : upnp_state scanning_world = upnp_multicasted) by (vm_compute; reflexivity).
  assert (Ec : the_client scanning_world = Some scanning_client)
    by (vm_compute; reflexivity).
  assert (Ef : find_location reply_datagram 0
                 (Z.to_nat (Z.of_nat (String.length reply_datagram) - 20)) = Some 44%nat)
    by (vm_compute; reflexivity).
  assert (Hl : (7 <= String.length (location_value reply_datagram 44))%nat).
  { assert (E : String.length (location_value reply_datagram 44) = 33%nat)
      by (vm_compute; reflexivity).
    rewrite E. lia. }
  split; [exact Es|]. split; [exact Ec|]. split; [exact Ef|]. split; [exact Hl|].
  exact (X3_location_reply_starts_description_fetch (H := sim_platform)
           scanning_world scanning_client reply_datagram 44 Es Ec Ef Hl).
Defined.

Lemma X4_host_and_path_witness :
  (7 <= 32)%nat /\
  exists c' l h p,
    upnp_analyze_location zalloc_client "http://192.168.1.1:8000/desc.xml" 32 = Some c' /\
    location c' = Some l /\
    l = c_str (str_take 32 "http://192.168.1.1:8000/desc.xml") /\
    host c' = Some h /\ path c' = Some p /\
    h ++ p = str_drop 7 l /\
    (p = EmptyString \/ exists r, p = String "/" r) /\
    remote_ip c' = remote_ip zalloc_client /\
    control_url c' = control_url zalloc_client /\
    external_address c' = external_address zalloc_client /\
    con c' = con zalloc_client /\ data c' = data zalloc_client.
Proof.
  assert (Hl : (7 <= 32)%nat) by lia.
  split; [exact Hl|].
  exact (X4_host_and_path_split_the_location zalloc_client
           "http://192.168.1.1:8000/desc.xml" 32 Hl).
Defined.

Lemma X5_location_without_colon_witness :
  String.length "http://" = 7%nat /\
  str_forall not_nul "http://" = true /\
  str_forall portless_char "192.168.1.1/desc.xml" = true /\
  exists c',
    upnp_analyze_location zalloc_client ("http://" ++ "192.168.1.1/desc.xml")
      (String.length ("http://" ++ "192.168.1.1/desc.xml")) = Some c' /\
    control_port c' = 80 /\
    path c' = Some EmptyString /\
    host c' = Some "192.168.1.1/desc.xml".
Proof.
  split; [reflexivity|]. split; [reflexivity|]. split; [reflexivity|].
  exact (X5_location_without_colon_keeps_no_path zalloc_client
           "http://" "192.168.1.1/desc.xml" eq_refl eq_refl eq_refl).
Defined.

Lemma X6_request_sending_witness :
  the_client long_request_world = Some long_request_client /\
  data long_request_client = Some long_request /\
  data_len long_request_client = uint16 (strlen long_request) /\
  exists w' c',
    run (H := sim_platform) long_request_world [TcpConnect; TcpSent; TcpSent] = Some w' /\
    trace w' = (chunks (sent_prefix long_request) ++ trace long_request_world)%list /\
    sent_bytes (trace w') =
      sent_bytes (trace long_request_world) ++ sent_prefix long_request /\
    strlen (sent_prefix long_request) = strlen long_request mod 65536 /\
    (strlen long_request < 65536 -> sent_prefix long_request = long_request) /\
    (65536 <= strlen long_request -> sent_prefix long_request <> long_request) /\
    the_client w' = Some c' /\ data c' = None /\
    upnp_state w' = upnp_state long_request_world.
Proof.
  assert (Ec : the_client long_request_world = Some long_request_client)
    by reflexivity.
  assert (Ed : data long_request_client = Some long_request) by reflexivity.
  assert (El : data_len long_request_client = uint16 (strlen long_request))
    by (vm_compute; reflexivity).
  split; [exact Ec|]. split; [exact Ed|]. split; [exact El|].
  exact (X6_request_is_sent_in_at_most_two_calls (H := sim_platform)
           long_request_world long_request_client long_request Ec Ed El).
Defined.

Lemma X7_exact_number_witness :
  upnp_state initial_world <> upnp_ready /\
  UTILS_StrToIP (Platform := sim_platform) upnp_ssdp_multicast = Some 4211081199 /\
  exists w',
    run (H := sim_platform) (cmdUPnPScan (H := sim_platform) true true initial_world)
        (List.repeat SsdpSent 6) = Some w' /\
    ssdp_sends (trace w') = ssdp_sends (trace initial_world) + 1 + Z.min (Z.of_nat 6) 4 /\
    counter w' = Z.min (Z.of_nat 6) 4.
Proof.
  assert (Ns : upnp_state initial_world <> upnp_ready) by discriminate.
  assert (Hm : UTILS_StrToIP (Platform := sim_platform) upnp_ssdp_multicast
               = Some 4211081199) by (vm_compute; reflexivity).
  split; [exact Ns|]. split; [exact Hm|].
  exact (X7_exact_number_of_discovery_datagrams (H := sim_platform)
           initial_world 4211081199 6 Ns Hm).
Defined.

Lemma X8_retransmission_counter_witness :
  reachable (H := sim_platform) flooded_world /\
  0 <= counter flooded_world <= 4.
Proof.
  assert (R : reachable (H := sim_platform) flooded_world).
  { exists (CmdScan true true :: six_completions). vm_compute. reflexivity. }
  split; [exact R|].
  exact (X8_retransmission_counter_is_bounded (H := sim_platform) flooded_world R).
Defined.

Lemma X9_unparsed_host_witness :
  reachable (H := sim_platform) blank_location_world /\
  the_client blank_location_world = Some blank_location_client /\
  host blank_location_client = Some "/192.168.1.1:8000" /\
  UTILS_StrToIP (Platform := sim_platform) "/192.168.1.1:8000" = None /\
  add_args_readable (H := sim_platform) add_packet /\
  remove_args_readable (H := sim_platform) remove_packet /\
  remote_ip blank_location_client = 0 /\
  cmdUPnPAddPort (H := sim_platform) add_packet blank_location_world
    = Some (respond (-1) blank_location_world) /\
  cmdUPnPRemovePort (H := sim_platform) remove_packet blank_location_world
    = Some (respond (-1) blank_location_world) /\
  cmdUPnPQueryExternalAddress (H := sim_platform) blank_location_world
    = Some (respond (-1) blank_location_world).
Proof.
  assert (R : reachable (H := sim_platform) blank_location_world).
  { exists (discovery_scenario "LOCATION: http://192.168.1.1:8000/desc.xml").
    vm_compute. reflexivity. }
  assert (Ec : the_client blank_location_world = Some blank_location_client)
    by (vm_compute; reflexivity).
  assert (Eh : host blank_location_client = Some "/192.168.1.1:8000")
    by (vm_compute; reflexivity).
  assert (Ep : UTILS_StrToIP (Platform := sim_platform) "/192.168.1.1:8000" = None)
    by (vm_compute; reflexivity).
  assert (Ha : add_args_readable (H := sim_platform) add_packet).
  { split; [reflexivity|]. do 6 eexists. split_all; reflexivity. }
  assert (Hr : remove_args_readable (H := sim_platform) remove_packet).
  { split; [reflexivity|]. do 2 eexists. reflexivity. }
  split; [exact R|]. split; [exact Ec|]. split; [exact Eh|]. split; [exact Ep|].
  split; [exact Ha|]. split; [exact Hr|].
  exact (X9_unparsed_host_blocks_operations (H := sim_platform)
           blank_location_world blank_location_client "/192.168.1.1:8000"
           add_packet remove_packet R Ec Eh Ep Ha Hr).
Defined.

Lemma X10_buffer_without_identifier_witness :
  upnp_state fetching_world = upnp_found_igd /\
  the_client fetching_world = Some fetching_client /\
  forallb quiet_token (tokens first_segment) = true /\
  upnp_tcp_recv_cb (H := sim_platform) first_segment fetching_world = Some fetching_world.
Proof.
  assert (Es : upnp_state fetching_world = upnp_found_igd) by (vm_compute; reflexivity).
  assert (Ec : the_client fetching_world = Some fetching_client)
    by (vm_compute; reflexivity).
  assert (Hq : forallb quiet_token (tokens first_segment) = true)
    by (vm_compute; reflexivity).
  split; [exact Es|]. split; [exact Ec|]. split; [exact Hq|].
  exact (X10_buffer_without_identifier_stores_nothing (H := sim_platform)
           fetching_world fetching_client first_segment Es Ec Hq).
Defined.

Lemma X11_control_url_without_identifier_witness :
  upnp_state fetching_world = upnp_found_igd /\
  the_client fetching_world = Some fetching_client /\
  forallb is_ctl ([] ++ [])%list = true /\
  tokens stray_close_body = ([] ++ [TClose] ++ [] ++ [TCtl "/stray"])%list /\
  upnp_tcp_recv_cb (H := sim_platform) stray_close_body fetching_world =
    Some (set_client (set_g_control_url fetching_world (Some "/stray"))
                     (Some (set_control_url fetching_client (Some "/stray")))).
Proof.
  assert (Es : upnp_state fetching_world = upnp_found_igd) by (vm_compute; reflexivity).
  assert (Ec : the_client fetching_world = Some fetching_client)
    by (vm_compute; reflexivity).
  assert (Hc : forallb is_ctl ([] ++ [])%list = true) by reflexivity.
  assert (Ht : tokens stray_close_body = ([] ++ [TClose] ++ [] ++ [TCtl "/stray"])%list)
    by (vm_compute; reflexivity).
  split; [exact Es|]. split; [exact Ec|]. split; [exact Hc|]. split; [exact Ht|].
  exact (X11_control_url_taken_without_identifier (H := sim_platform)
           fetching_world fetching_client stray_close_body "/stray" [] [] Es Ec Hc Ht).
Defined.

Lemma X12_external_address_reply_witness :
  upnp_state querying_world = upnp_query_extaddress /\
  the_client querying_world = Some querying_client /\
  host querying_client = Some "192.168.1.1:8000" /\
  (exists i, (i < String.length external_ip_reply)%nat /\
     str_map tolower (str_take 22 (str_drop i external_ip_reply))
     = "<newexternalipaddress>") /\
  upnp_tcp_recv_cb (H := sim_platform) external_ip_reply querying_world =
    Some match UTILS_StrToIP (Platform := sim_platform) "192.168.1.1:8000" with
         | Some e => set_client querying_world
                       (Some (set_external_address querying_client e))
         | None => querying_world
         end.
Proof.
  assert (Es : upnp_state querying_world = upnp_query_extaddress)
    by (vm_compute; reflexivity).
  assert (Ec : the_client querying_world = Some querying_client)
    by (vm_compute; reflexivity).
  assert (Eh : host querying_client = Some "192.168.1.1:8000")
    by (vm_compute; reflexivity).
  assert (Hx : exists i, (i < String.length external_ip_reply)%nat /\
             str_map tolower (str_take 22 (str_drop i external_ip_reply))
             = "<newexternalipaddress>").
  { exists 19%nat. split; [|vm_compute; reflexivity].
    assert (E : String.length external_ip_reply = 78%nat) by (vm_compute; reflexivity).
    rewrite E. lia. }
  split; [exact Es|]. split; [exact Ec|]. split; [exact Eh|]. split; [exact Hx|].
  exact (proj2 (X12_external_address_reply (H := sim_platform)
                  querying_world querying_client "192.168.1.1:8000" external_ip_reply
                  Es Ec Eh) Hx).
Defined.

Lemma X13_operation_request_texts_witness :
  control_url mapping_client = Some "/ctl" /\
  host mapping_client = Some "192.168.1.1:8000" /\
  build_query upnp_adding_port mapping_client =
    Some (Some (add_request "/ctl" "192.168.1.1:8000"
                  (add_xml (remote_port mapping_client) (port mapping_client)
                           (ip4_addr4 (ip mapping_client)) (ip4_addr3 (ip mapping_client))
                           (ip4_addr2 (ip mapping_client)) (ip4_addr1 (ip mapping_client))))) /\
  build_query upnp_query_extaddress mapping_client =
    Some (Some (extaddr_request "/ctl" "192.168.1.1:8000" upnp_query_external_address_xml)) /\
  build_query upnp_removing_port mapping_client =
    Some (Some (remove_headers "/ctl" "192.168.1.1:8000"
                  (strlen (remove_xml (remote_port mapping_client))))).
Proof.
  assert (Eu : control_url mapping_client = Some "/ctl") by (vm_compute; reflexivity).
  assert (Eh : host mapping_client = Some "192.168.1.1:8000") by (vm_compute; reflexivity).
  split; [exact Eu|]. split; [exact Eh|].
  exact (X13_operation_request_texts mapping_client "/ctl" "192.168.1.1:8000" Eu Eh).
Defined.


Lemma X15_operations_accepted_witness :
  reachable (H := sim_platform) ready_world /\
  upnp_state ready_world = upnp_ready /\
  the_client ready_world = Some ready_client /\
  remote_ip ready_client <> 0 /\
  control_url ready_client = Some "/ctl" /\
  (exists w' c',
     cmdUPnPAddPort (H := sim_platform) add_packet ready_world = Some w' /\
     started ready_world ready_client upnp_adding_port w' /\
     the_client w' = Some c' /\
     ip c' = uint32 ip_192_168_1_176 /\ port c' = uint16 80 /\
     remote_port c' = uint16 9876) /\
  (exists w' c',
     cmdUPnPRemovePort (H := sim_platform) remove_packet ready_world = Some w' /\
     started ready_world ready_client upnp_removing_port w' /\
     the_client w' = Some c' /\ remote_port c' = uint16 9876) /\
  (exists w',
     cmdUPnPQueryExternalAddress (H := sim_platform) ready_world = Some w' /\
     started ready_world ready_client upnp_query_extaddress w').
Proof.
  assert (R : reachable (H := sim_platform) ready_world).
  { exists discovery_events. vm_compute. reflexivity. }
  assert (Es : upnp_state ready_world = upnp_ready) by (vm_compute; reflexivity).
  assert (Ec : the_client ready_world = Some ready_client) by (vm_compute; reflexivity).
  assert (Nz : remote_ip ready_client <> 0) by (vm_compute; discriminate).
  assert (Eu : control_url ready_client = Some "/ctl") by (vm_compute; reflexivity).
  split; [exact R|]. split; [exact Es|]. split; [exact Ec|]. split; [exact Nz|].
  split; [exact Eu|].
  exact (X15_operations_are_accepted_from_ready (H := sim_platform)
           ready_world ready_client "/ctl" add_packet remove_packet
           ip_192_168_1_176 80 9876 9876
           (mk_packet 3 [(2, 80); (2, 9876)]) (mk_packet 3 [(2, 9876)])
           (mk_packet 3 []) (mk_packet 1 [])
           R Es Ec Nz Eu eq_refl eq_refl eq_refl eq_refl eq_refl eq_refl).
Defined.

Lemma X16_scan_in_ready_witness :
  reachable (H := sim_platform) ready_world /\
  upnp_state ready_world = upnp_ready /\
  exists c,
    the_client ready_world = Some c /\
    (forall a b, cmdUPnPScan (H := sim_platform) a b ready_world
                 = respond (remote_ip c) ready_world) /\
    (remote_ip c = 0 \/
     exists h, host c = Some h /\
               UTILS_StrToIP (Platform := sim_platform) h = Some (remote_ip c)).
Proof.
  assert (R : reachable (H := sim_platform) ready_world).
  { exists discovery_events. vm_compute. reflexivity. }
  assert (Es : upnp_state ready_world = upnp_ready) by (vm_compute; reflexivity).
  split; [exact R|]. split; [exact Es|].
  exact (X16_scan_in_ready_reports_the_gateway (H := sim_platform) ready_world R Es).
Defined.
